(** * ai_hair_stylist: preference normalisation, catalog and ranking

    A shallow embedding of [preferences.py], [catalog.py] and
    [recommendation.py], followed by the properties of the ranking
    pipeline.

    Modelling conventions.
    - A Python [str] is a [string] of 7-bit characters; [lower] and [strip]
      act on the ASCII letters and the ASCII white space of [str.isspace].
    - A [frozenset] of strings is a [gset string].  Python does not fix the
      order in which a set is iterated, so every function that iterates a
      set takes that order as the parameter [set_iter].
    - A [dict] whose iteration order is observed is an association list in
      insertion order; a [dict] that is only subscripted is a [gmap].
    - A [float] is a carrier [F] with the operations of the class [Num];
      nothing is assumed about rounding.  The ordering facts that hold of
      floats other than NaN are collected in [NumOrder]. *)

From Stdlib Require Import ZArith QArith Ascii String List Permutation Sorted.
From stdpp Require Import base option list gmap sets strings sorting.
Import ListNotations.

(* set_solver clears hypotheses by name and warns when one is gone *)
Set Warnings "-clear-no-such-hyp".

Local Open Scope string_scope.
Local Open Scope list_scope.

(** ** Python strings *)

Module PyStr.

(** [str.isspace] on a 7-bit character: TAB..CR, FS..US and the space. *)
Definition is_space (c : ascii) : bool :=
  let n := N_of_ascii c in
  ((9 <=? n) && (n <=? 13) || (28 <=? n) && (n <=? 32))%N.

Definition lower_char (c : ascii) : ascii :=
  let n := N_of_ascii c in
  if ((65 <=? n) && (n <=? 90))%N then ascii_of_N (n + 32) else c.

(** [s.lower()] *)
Fixpoint lower (s : string) : string :=
  match s with
  | EmptyString => EmptyString
  | String c s' => String (lower_char c) (lower s')
  end.

(** [s.lstrip()] *)
Fixpoint lstrip (s : string) : string :=
  match s with
  | EmptyString => EmptyString
  | String c s' => if is_space c then lstrip s' else s
  end.

(** [s.rstrip()] *)
Fixpoint rstrip (s : string) : string :=
  match s with
  | EmptyString => EmptyString
  | String c s' =>
      let r := rstrip s' in
      if is_space c && (r =? "") then "" else String c r
  end.

(** [s.strip()] *)
Definition strip (s : string) : string := lstrip (rstrip s).

(** Truth value of a string: [bool(s)]. *)
Definition truthy (s : string) : bool := negb (s =? "").

(** [sep.join(items)] *)
Definition join (sep : string) (items : list string) : string :=
  String.concat sep items.

(** [s.startswith(p)] *)
Definition startswith (s p : string) : bool := String.prefix p s.

(** [a < b] on strings: lexicographic on code points. *)
Definition lt (a b : string) : bool := String.ltb a b.

(** [a <= b] on strings. *)
Definition le (a b : string) : bool := String.leb a b.

(** The one-character strings Python yields when a [str] is iterated. *)
Definition chars (s : string) : list string :=
  map (fun c => String c "") (list_ascii_of_string s).

End PyStr.

(** ** Python's [sorted] *)

Module PySort.
Section Sorted.
Context {A : Type} (lt : A -> A -> bool).

(** [x] stood before every element of [l] in the input and moves past
    [y] only when [y] must strictly precede it, so equal keys keep their
    input order: [sorted] is stable, also under [reverse=True]. *)
Fixpoint insert (reverse : bool) (x : A) (l : list A) : list A :=
  match l with
  | [] => [x]
  | y :: l' =>
      if (if reverse then lt x y else lt y x)
      then y :: insert reverse x l'
      else x :: l
  end.

(** [sorted(l, reverse=reverse)], where [lt] is [<] on the keys. *)
Definition sorted (reverse : bool) (l : list A) : list A :=
  foldr (insert reverse) [] l.

(** [a] may stand directly before [b] in the output: [b] does not
    strictly precede it. *)
Definition in_order (reverse : bool) (a b : A) : Prop :=
  (if reverse then lt a b else lt b a) = false.
End Sorted.
End PySort.

(** ** Python dictionaries in insertion order *)

Module PyDict.
Section Dict.
Context {V : Type}.

Definition dict := list (string * V).

(** [d.get(k)] *)
Fixpoint get (k : string) (d : dict) : option V :=
  match d with
  | [] => None
  | (k', v) :: d' => if k' =? k then Some v else get k d'
  end.

(** [k in d] *)
Definition contains (k : string) (d : dict) : bool :=
  match get k d with Some _ => true | None => false end.

(** [d[k] = v]: an existing key keeps its position, a new one goes last. *)
Fixpoint set (k : string) (v : V) (d : dict) : dict :=
  match d with
  | [] => [(k, v)]
  | (k', v') :: d' => if k' =? k then (k', v) :: d' else (k', v') :: set k v d'
  end.

(** [d.values()] *)
Definition values (d : dict) : list V := map snd d.
End Dict.
Arguments dict V : clear implicits.
End PyDict.

(** ** Floats *)

(** The float operations the engine uses.  [of_Q q] is the float denoted by
    the literal or integer [q]; [flt] and [feq] are [<] and [==]. *)
Class Num (F : Type) := {
  of_Q : Q -> F;
  fadd : F -> F -> F;
  fmul : F -> F -> F;
  flt : F -> F -> bool;
  feq : F -> F -> bool;
}.

(** [a >= b] *)
Definition fge `{Num F} (a b : F) : bool := flt b a || feq a b.

(** [a > b] *)
Definition fgt `{Num F} (a b : F) : bool := flt b a.

(** What [<] and [==] satisfy on floats that are not NaN. *)
Class NumOrder (F : Type) `{Num F} : Prop := {
  feq_sym : forall a b : F, feq a b = feq b a;
  flt_asym : forall a b : F, flt a b = true -> flt b a = false;
  flt_total : forall a b : F, flt a b = true \/ feq a b = true \/ flt b a = true;
}.

(** The rest of what makes [<] and [==] a total order on floats that are
    not NaN. *)
Class NumTotalOrder (F : Type) `{Num F} : Prop := {
  feq_refl : forall a : F, feq a a = true;
  feq_trans : forall a b c : F, feq a b = true -> feq b c = true -> feq a c = true;
  flt_trans : forall a b c : F, flt a b = true -> flt b c = true -> flt a c = true;
  flt_feq_l : forall a b c : F, feq a b = true -> flt a c = flt b c;
  flt_feq_r : forall a b c : F, feq b c = true -> flt a b = flt a c;
  flt_not_feq : forall a b : F, flt a b = true -> feq a b = false;
}.

(** Exact rationals: the instance used to run the model. *)
#[export] Instance Num_Q : Num Q := {|
  of_Q := fun q => q;
  fadd := Qplus;
  fmul := Qmult;
  flt := fun a b => negb (Qle_bool b a);
  feq := Qeq_bool;
|}.

(** ** preferences.py *)

Module preferences.
Import PyStr.

(** [_normalise_value]: [None] stays [None]; otherwise strip, lowercase,
    and an empty result becomes [None]. *)
Definition _normalise_value (value : option string) : option string :=
  match value with
  | None => None
  | Some v =>
      let value := lower (strip v) in
      if truthy value then Some value else None
  end.

(** [_normalise_keywords]: [values] is [None] or the items the iterable
    yields. *)
Definition _normalise_keywords (values : option (list string)) : gset string :=
  match values with
  | None | Some [] => ∅
  | Some items =>
      list_to_set
        (map (fun item => lower (strip item))
             (List.filter (fun item => truthy (strip item)) items))
  end.

Record ClientPreferences := {
  face_shape : option string;
  hair_length : option string;
  hair_texture : option string;
  gender : option string;
  occasion : option string;
  maintenance : option string;
  keywords : gset string;
  avoid : gset string;
}.

(** The dataclass constructor: the generated [__init__] stores the eight
    arguments and [__post_init__] replaces each by its normal form. *)
Definition __post_init__
    (face_shape hair_length hair_texture gender occasion maintenance : option string)
    (keywords avoid : option (list string)) : ClientPreferences :=
  {| face_shape := _normalise_value face_shape;
     hair_length := _normalise_value hair_length;
     hair_texture := _normalise_value hair_texture;
     gender := _normalise_value gender;
     occasion := _normalise_value occasion;
     maintenance := _normalise_value maintenance;
     keywords := _normalise_keywords keywords;
     avoid := _normalise_keywords avoid |}.

(** [ClientPreferences()] with every field left at its default. *)
Definition defaults : ClientPreferences :=
  __post_init__ None None None None None None (Some []) (Some []).

Section SetOrder.
(** The order in which the runtime iterates a frozenset. *)
Variable set_iter : gset string -> list string.

(** [merge_keywords]: a new value built from the fields of [self]. *)
Definition merge_keywords (self : ClientPreferences)
    (extra : option (list string)) : ClientPreferences :=
  __post_init__
    (face_shape self) (hair_length self) (hair_texture self)
    (gender self) (occasion self) (maintenance self)
    (Some (set_iter (keywords self ∪ _normalise_keywords extra)))
    (Some (set_iter (avoid self))).

(** A new [ClientPreferences] built from the eight fields of [p]. *)
Definition rebuild (p : ClientPreferences) : ClientPreferences :=
  __post_init__
    (face_shape p) (hair_length p) (hair_texture p)
    (gender p) (occasion p) (maintenance p)
    (Some (set_iter (keywords p))) (Some (set_iter (avoid p))).
End SetOrder.

Section Describe.
(** The order in which the runtime iterates a frozenset. *)
Variable set_iter : gset string -> list string.

(** [parts.append(part)] when the scalar field [field] is truthy. *)
Definition describe_scalar (field : option string) (part : string -> string)
    (parts : list string) : list string :=
  match field with
  | Some v => if truthy v then parts ++ [part v] else parts
  | None => parts
  end.

(** [parts.append(label + ", ".join(sorted(field)))] when the set is not
    empty. *)
Definition describe_set (field : gset string) (label : string)
    (parts : list string) : list string :=
  if bool_decide (field <> ∅)
  then parts ++ [(label ++ join ", " (PySort.sorted PyStr.lt false (set_iter field)))%string]
  else parts.

(** [describe] *)
Definition describe (self : ClientPreferences) : string :=
  let parts : list string := [] in
  let parts := describe_scalar (face_shape self) (fun v => "face shape " ++ v)%string parts in
  let parts := describe_scalar (hair_length self) (fun v => v ++ " length")%string parts in
  let parts := describe_scalar (hair_texture self) (fun v => v ++ " texture")%string parts in
  let parts := describe_scalar (gender self) (fun v => "for " ++ v ++ " clients")%string parts in
  let parts := describe_scalar (occasion self) (fun v => "for " ++ v ++ " occasions")%string parts in
  let parts := describe_scalar (maintenance self) (fun v => v ++ " maintenance")%string parts in
  let parts := describe_set (keywords self) "keywords: " parts in
  let parts := describe_set (avoid self) "avoid: " parts in
  match parts with
  | [] => "general preferences"
  | _ :: _ => join "; " parts
  end.
End Describe.

(** *** Loosely typed payloads *)

(** The values a payload carries: [None], a string, or a sequence of
    strings. *)
Inductive pyval :=
| PNone
| PStr (s : string)
| PSeq (items : list string).

(** [bool(v)] *)
Definition pyval_truthy (v : pyval) : bool :=
  match v with
  | PNone => false
  | PStr s => truthy s
  | PSeq [] => false
  | PSeq (_ :: _) => true
  end.

Definition is_PNone (v : pyval) : bool :=
  match v with PNone => true | _ => false end.

(** [TypeError]: the constructor got an unexpected keyword argument.
    [OutsideModel]: a sequence was passed for a field annotated
    [str | None], whose [str()] rendering is not modelled. *)
Inductive error := TypeError | OutsideModel.

(** [data.pop(key, None)] *)
Definition pop (key : string) (data : gmap string pyval)
    : pyval * gmap string pyval :=
  (default PNone (data !! key), delete key data).

Definition field_names : list string :=
  ["face_shape"; "hair_length"; "hair_texture"; "gender"; "occasion";
   "maintenance"; "keywords"; "avoid"].

(** A value bound to a field annotated [str | None]. *)
Definition scalar_arg (data : gmap string pyval) (key : string)
    : error + option string :=
  match data !! key with
  | None | Some PNone => inr None
  | Some (PStr s) => inr (Some s)
  | Some (PSeq _) => inl OutsideModel
  end.

(** A value bound to a field that is iterated; iterating a string yields
    its characters. *)
Definition iterable_arg (data : gmap string pyval) (key : string)
    : option (list string) :=
  match data !! key with
  | None => Some []
  | Some PNone => None
  | Some (PStr s) => Some (chars s)
  | Some (PSeq items) => Some items
  end.

(** The call of [cls] with [data] as its keyword arguments. *)
Definition call_kwargs (data : gmap string pyval)
    : error + ClientPreferences :=
  if bool_decide (dom data ⊆ list_to_set field_names) then
    match scalar_arg data "face_shape", scalar_arg data "hair_length",
          scalar_arg data "hair_texture", scalar_arg data "gender",
          scalar_arg data "occasion", scalar_arg data "maintenance" with
    | inr fs, inr hl, inr ht, inr g, inr o, inr m =>
        inr (__post_init__ fs hl ht g o m
               (iterable_arg data "keywords") (iterable_arg data "avoid"))
    | _, _, _, _, _, _ => inl OutsideModel
    end
  else inl TypeError.

(** [from_dict] *)
Definition from_dict (payload : gmap string pyval)
    : error + ClientPreferences :=
  let data := payload in
  let '(kw, data) := pop "keywords" data in
  (* [x or y]: [y] is evaluated only when [x] is falsy *)
  let '(keywords, data) :=
    if pyval_truthy kw then (kw, data) else pop "tags" data in
  let '(avoid, data) := pop "avoid" data in
  let data := if is_PNone keywords then data else <["keywords" := keywords]> data in
  let data := if is_PNone avoid then data else <["avoid" := avoid]> data in
  call_kwargs data.

(** The fields annotated [str | None]. *)
Definition scalar_fields : list string :=
  ["face_shape"; "hair_length"; "hair_texture"; "gender"; "occasion";
   "maintenance"].

(** The payloads [from_dict] can turn into preferences when [tags] is
    consumed: every other key is a field name, and no scalar field is
    given a sequence. *)
Definition accepted (payload : gmap string pyval) : Prop :=
  dom payload ⊆ list_to_set ("tags" :: field_names)
  /\ forall key items, key ∈ scalar_fields -> payload !! key <> Some (PSeq items).

End preferences.

(** ** catalog.py *)

Module catalog.
Import PyStr.

Record Hairstyle := {
  name : string;
  description : string;
  face_shapes : gset string;
  hair_lengths : gset string;
  hair_textures : gset string;
  genders : gset string;
  occasions : gset string;
  maintenance : string;
  tags : gset string;
}.

Inductive error :=
| ValueError (msg : string)
| KeyError (msg : string).

Record HairstyleCatalog := { _by_name : PyDict.dict Hairstyle }.

(** The dictionary key [style.name.lower()] of a style. *)
Definition key_of (style : Hairstyle) : string := lower (name style).

(** The dictionary that holds [styles] under their keys, in order; it is
    what the lemmas below show [__init__] to build. *)
Definition entries (styles : list Hairstyle) : PyDict.dict Hairstyle :=
  map (fun style => (key_of style, style)) styles.

(** The loop of [HairstyleCatalog.__init__] over the remaining styles. *)
Fixpoint init_loop (by_name : PyDict.dict Hairstyle)
    (hairstyles : list Hairstyle) : error + PyDict.dict Hairstyle :=
  match hairstyles with
  | [] => inr by_name
  | style :: rest =>
      let key := lower (name style) in
      if PyDict.contains key by_name
      then inl (ValueError ("Duplicate hairstyle: " ++ name style))
      else init_loop (PyDict.set key style by_name) rest
  end.

(** [HairstyleCatalog(hairstyles)] *)
Definition __init__ (hairstyles : list Hairstyle) : error + HairstyleCatalog :=
  match init_loop [] hairstyles with
  | inl e => inl e
  | inr d => inr {| _by_name := d |}
  end.

(** [iter(catalog)] *)
Definition __iter__ (self : HairstyleCatalog) : list Hairstyle :=
  PyDict.values (_by_name self).

(** [len(catalog)] *)
Definition __len__ (self : HairstyleCatalog) : nat :=
  length (_by_name self).

(** [name in catalog] *)
Definition __contains__ (self : HairstyleCatalog) (name : string) : bool :=
  PyDict.contains (lower name) (_by_name self).

(** [find] *)
Definition find (self : HairstyleCatalog) (name : string) : error + Hairstyle :=
  match PyDict.get (lower name) (_by_name self) with
  | Some style => inr style
  | None => inl (KeyError ("Unknown hairstyle: " ++ name))
  end.

(** *** Records *)

(** The values of a catalog record: a string or an array of strings. *)
Inductive jval :=
| JStr (s : string)
| JList (items : list string).

Section Records.
(** [str(items)] of a list, which the model leaves open. *)
Variable repr_list : list string -> string.
(** The order in which the runtime iterates a frozenset. *)
Variable set_iter : gset string -> list string.

(** [str(v)] *)
Definition py_str (v : jval) : string :=
  match v with
  | JStr s => s
  | JList items => repr_list items
  end.

(** [_as_frozenset]: a missing key is the empty list and a bare string a
    one-element list; the items are lowercased, not stripped. *)
Definition _as_frozenset (data : gmap string jval) (key : string) : gset string :=
  let values :=
    match data !! key with
    | None => []
    | Some (JStr s) => [s]
    | Some (JList items) => items
    end in
  list_to_set (map lower values).

(** [Hairstyle.from_mapping]: [data["name"]] is the one subscript that can
    raise. *)
Definition from_mapping (data : gmap string jval) : error + Hairstyle :=
  match data !! "name" with
  | None => inl (KeyError "name")
  | Some n =>
      inr {| name := strip (py_str n);
             description := strip (py_str (default (JStr "") (data !! "description")));
             face_shapes := _as_frozenset data "face_shapes";
             hair_lengths := _as_frozenset data "hair_lengths";
             hair_textures := _as_frozenset data "hair_textures";
             genders := _as_frozenset data "genders";
             occasions := _as_frozenset data "occasions";
             maintenance := lower (py_str (default (JStr "medium") (data !! "maintenance")));
             tags := _as_frozenset data "tags" |}
  end.

(** [sorted(s)] of a frozenset *)
Definition sorted_set (s : gset string) : jval :=
  JList (PySort.sorted PyStr.lt false (set_iter s)).

(** [Hairstyle.to_dict] *)
Definition to_dict (self : Hairstyle) : gmap string jval :=
  {[ "name" := JStr (name self);
     "description" := JStr (description self);
     "face_shapes" := sorted_set (face_shapes self);
     "hair_lengths" := sorted_set (hair_lengths self);
     "hair_textures" := sorted_set (hair_textures self);
     "genders" := sorted_set (genders self);
     "occasions" := sorted_set (occasions self);
     "maintenance" := JStr (maintenance self);
     "tags" := sorted_set (tags self) ]}.

(** [from_records] hands [__init__] a generator, so each record is
    converted right before it is stored: the loop of [__init__] with the
    conversion in it. *)
Fixpoint from_records_loop (by_name : PyDict.dict Hairstyle)
    (records : list (gmap string jval)) : error + PyDict.dict Hairstyle :=
  match records with
  | [] => inr by_name
  | record :: rest =>
      match from_mapping record with
      | inl e => inl e
      | inr style =>
          let key := lower (name style) in
          if PyDict.contains key by_name
          then inl (ValueError ("Duplicate hairstyle: " ++ name style))
          else from_records_loop (PyDict.set key style by_name) rest
      end
  end.

(** [HairstyleCatalog.from_records] *)
Definition from_records (records : list (gmap string jval))
    : error + HairstyleCatalog :=
  match from_records_loop [] records with
  | inl e => inl e
  | inr d => inr {| _by_name := d |}
  end.

(** [to_list] *)
Definition to_list (self : HairstyleCatalog) : list (gmap string jval) :=
  map to_dict (__iter__ self).

(** Every record converted, in order, or the first error. *)
Fixpoint convert_all (records : list (gmap string jval))
    : error + list Hairstyle :=
  match records with
  | [] => inr []
  | record :: rest =>
      match from_mapping record with
      | inl e => inl e
      | inr style =>
          match convert_all rest with
          | inl e => inl e
          | inr styles => inr (style :: styles)
          end
      end
  end.
End Records.

(** The form [from_mapping] gives a hairstyle: name and description
    stripped, maintenance and every set member lowercased. *)
Definition normalised (h : Hairstyle) : Prop :=
  strip (name h) = name h
  /\ strip (description h) = description h
  /\ lower (maintenance h) = maintenance h
  /\ forall x,
       x ∈ face_shapes h ∪ hair_lengths h ∪ hair_textures h ∪ genders h
           ∪ occasions h ∪ tags h ->
       lower x = x.

End catalog.

(** ** recommendation.py *)

Module recommendation.
Import PyStr.
Import catalog preferences.

(** [_MAINTENANCE_LEVELS] *)
Definition _MAINTENANCE_LEVELS : gmap string Z :=
  {[ "low" := 0%Z; "medium" := 1%Z; "high" := 2%Z ]}.

Section Engine.
Context {F : Type} `{Num F}.

(** [DEFAULT_WEIGHTS] *)
Definition DEFAULT_WEIGHTS : gmap string F :=
  {[ "face_shape" := of_Q 3;
     "hair_length" := of_Q (5 # 2);
     "hair_texture" := of_Q 3;
     "gender" := of_Q 1;
     "occasion" := of_Q (3 # 2);
     "maintenance" := of_Q (3 # 2);
     "keyword" := of_Q (4 # 5);
     "avoid" := of_Q (-4) ]}.

Record Recommendation := {
  hairstyle : Hairstyle;
  score : F;
  reasons : list string;
}.

Record RecommendationEngine := {
  catalog : HairstyleCatalog;
  weights : gmap string F;
  minimum_score : F;
}.

(** [RecommendationEngine(catalog, weights=..., minimum_score=...)]:
    [DEFAULT_WEIGHTS | (weights or {})] lets the overrides win. *)
Definition __init__ (catalog : HairstyleCatalog)
    (weights : option (gmap string F)) (minimum_score : F)
    : RecommendationEngine :=
  {| catalog := catalog;
     weights := default ∅ weights ∪ DEFAULT_WEIGHTS;
     minimum_score := minimum_score |}.

(** [self.weights[key]].  Every engine built by [__init__] holds the
    eight default keys (lemma [init_weights_lookup] below), so the
    subscript never raises and the fallback is never taken. *)
Definition weight (self : RecommendationEngine) (key : string) : F :=
  default (of_Q 0) (weights self !! key).

(** The running [score] and [reasons] of [_score]. *)
Definition tally : Type := F * list string.

(** [score += w; reasons.append(reason)] *)
Definition credit (st : tally) (w : F) (reason : string) : tally :=
  (fadd st.1 w, st.2 ++ [reason]).

(** The maintenance block of [_score]. *)
Definition score_maintenance (self : RecommendationEngine)
    (hairstyle : Hairstyle) (preferences : ClientPreferences)
    (st : tally) : tally :=
  match preferences.maintenance preferences with
  | Some m =>
      if truthy m then
        let desired := _MAINTENANCE_LEVELS !! m in
        let current := _MAINTENANCE_LEVELS !! catalog.maintenance hairstyle in
        match desired, current with
        | Some desired, Some current =>
            let difference := Z.abs (desired - current) in
            if (difference =? 0)%Z then
              credit st (weight self "maintenance")
                ("meets " ++ m ++ " maintenance goal")
            else if (difference =? 1)%Z then
              credit st (fmul (weight self "maintenance") (of_Q (1 # 2)))
                "slightly different maintenance but still manageable"
            else st
        | _, _ => st
        end
      else st
  | None => st
  end.

(** One of the five single-valued blocks of [_score]: the preference
    [pref] is present and a member of the hairstyle's set [values]. *)
Definition matches (pref : option string) (values : gset string)
    : option string :=
  match pref with
  | Some v => if truthy v && bool_decide (v ∈ values) then Some v else None
  | None => None
  end.

(** The order in which the runtime iterates a frozenset. *)
Variable set_iter : gset string -> list string.

(** [", ".join(sorted(s))] *)
Definition sorted_join (s : gset string) : string :=
  join ", " (PySort.sorted PyStr.lt false (set_iter s)).

(** [_score] *)
Definition _score (self : RecommendationEngine) (hairstyle : Hairstyle)
    (preferences : ClientPreferences) : Recommendation :=
  let st : tally := (of_Q 0, []) in
  let st :=
    match matches (face_shape preferences) (face_shapes hairstyle) with
    | Some v => credit st (weight self "face_shape")
                  ("suits " ++ v ++ " face shapes")
    | None => st
    end in
  let st :=
    match matches (hair_length preferences) (hair_lengths hairstyle) with
    | Some v => credit st (weight self "hair_length")
                  ("matches " ++ v ++ " length goal")
    | None => st
    end in
  let st :=
    match matches (hair_texture preferences) (hair_textures hairstyle) with
    | Some v => credit st (weight self "hair_texture")
                  ("works with " ++ v ++ " texture")
    | None => st
    end in
  let st :=
    match matches (gender preferences) (genders hairstyle) with
    | Some v => credit st (weight self "gender")
                  ("popular with " ++ v ++ " clients")
    | None => st
    end in
  let st :=
    match matches (occasion preferences) (occasions hairstyle) with
    | Some v => credit st (weight self "occasion")
                  ("appropriate for " ++ v ++ " occasions")
    | None => st
    end in
  let st := score_maintenance self hairstyle preferences st in
  let st :=
    if bool_decide (keywords preferences ≠ ∅) then
      let overlap := keywords preferences ∩ tags hairstyle in
      if bool_decide (overlap ≠ ∅) then
        let increment :=
          fmul (weight self "keyword")
               (of_Q (inject_Z (Z.of_nat (size overlap)))) in
        credit st increment
          ("matches requested features: " ++ sorted_join overlap)
      else st
    else st in
  let st :=
    if bool_decide (avoid preferences ≠ ∅) then
      let conflict := avoid preferences ∩ tags hairstyle in
      if bool_decide (conflict ≠ ∅) then
        let penalty :=
          fmul (weight self "avoid")
               (of_Q (inject_Z (Z.of_nat (size conflict)))) in
        credit st penalty
          ("conflicts with avoid list: " ++ sorted_join conflict)
      else st
    else st in
  {| hairstyle := hairstyle; score := st.1; reasons := st.2 |}.

(** [_has_conflict] *)
Definition _has_conflict (recommendation : Recommendation) : bool :=
  existsb (fun reason => startswith reason "conflicts with")
          (reasons recommendation).

(** The sort key of [rank]: [(rec.score, rec.hairstyle.name.lower())]. *)
Definition sort_key (rec : Recommendation) : F * string :=
  (score rec, lower (name (hairstyle rec))).

(** [a < b] on two such tuples: the first components that are not [==]
    decide. *)
Definition key_lt (a b : F * string) : bool :=
  if feq a.1 b.1 then PyStr.lt a.2 b.2 else flt a.1 b.1.

(** [rank] *)
Definition rank (self : RecommendationEngine)
    (preferences : ClientPreferences) : list Recommendation :=
  let results :=
    map (fun style => _score self style preferences)
        (catalog.__iter__ (catalog self)) in
  let filtered :=
    List.filter
      (fun result =>
         fge (score result) (minimum_score self)
         && negb (_has_conflict result))
      results in
  PySort.sorted (fun a b => key_lt (sort_key a) (sort_key b)) true filtered.

(** [l[:n]] *)
Definition slice_to {A} (l : list A) (n : Z) : list A :=
  if (0 <=? n)%Z then take (Z.to_nat n) l
  else take (length l - Z.to_nat (- n)) l.

(** [recommend] *)
Definition recommend (self : RecommendationEngine)
    (preferences : ClientPreferences) (limit : Z) : list Recommendation :=
  let ranked := rank self preferences in
  if (0 <? limit)%Z then slice_to ranked limit else ranked.

(** The order [rank] leaves between a recommendation and the next one:
    a greater score first, and among equal scores the name that is not
    smaller, case-insensitively. *)
Definition rank_order (a b : Recommendation) : bool :=
  fgt (score a) (score b)
  || feq (score a) (score b)
     && PyStr.le (lower (name (hairstyle b))) (lower (name (hairstyle a))).

(** The order as the specification words it: ties in ascending name
    order. *)
Definition spec_rank_order (a b : Recommendation) : bool :=
  fgt (score a) (score b)
  || feq (score a) (score b)
     && PyStr.le (lower (name (hairstyle a))) (lower (name (hairstyle b))).

(** The maintenance block as the specification words it: the reason of
    an exact match is a fixed sentence. *)
Definition spec_score_maintenance (self : RecommendationEngine)
    (hairstyle : Hairstyle) (preferences : ClientPreferences)
    (st : tally) : tally :=
  match preferences.maintenance preferences with
  | Some m =>
      match _MAINTENANCE_LEVELS !! m,
            _MAINTENANCE_LEVELS !! catalog.maintenance hairstyle with
      | Some desired, Some current =>
          let distance := Z.abs (desired - current) in
          if (distance =? 0)%Z then
            credit st (weight self "maintenance")
              "meets exact maintenance goal"
          else if (distance =? 1)%Z then
            credit st (fmul (weight self "maintenance") (of_Q (1 # 2)))
              "slightly different maintenance but still manageable"
          else st
      | _, _ => st
      end
  | None => st
  end.

(** What [recommend_hairstyles] can raise: the error of [from_dict] or the
    error of loading the bundled catalog. *)
Inductive failure :=
| PreferencesError (e : preferences.error)
| CatalogError (e : catalog.error).

(** The outcome of [HairstyleCatalog.default()], which reads the bundled
    data file. *)
Variable default_catalog : catalog.error + HairstyleCatalog.

(** [recommend_hairstyles] *)
Definition recommend_hairstyles
    (preferences : ClientPreferences + gmap string pyval)
    (catalog : option HairstyleCatalog) (limit : Z)
    (weights : option (gmap string F)) : failure + list Recommendation :=
  let preferences :=
    match preferences with
    | inl p => inr p
    | inr payload => from_dict payload
    end in
  match preferences with
  | inl e => inl (PreferencesError e)
  | inr preferences =>
      let catalog :=
        match catalog with
        | Some c => inr c
        | None => default_catalog
        end in
      match catalog with
      | inl e => inl (CatalogError e)
      | inr catalog =>
          let engine := __init__ catalog weights (of_Q 0) in
          inr (recommend engine preferences limit)
      end
  end.

End Engine.

Arguments Recommendation F : clear implicits.
Arguments RecommendationEngine F : clear implicits.

End recommendation.

(** ** A two-entry catalog to run the model on *)

Module sample.
Import catalog.

Definition afro : Hairstyle :=
  {| name := "Afro"; description := "Rounded natural shape";
     face_shapes := {["oval"]}; hair_lengths := {["medium"]};
     hair_textures := {["curly"]}; genders := ∅; occasions := ∅;
     maintenance := "low"; tags := {["curls"; "wash-and-go"]} |}.

Definition bob : Hairstyle :=
  {| name := "Bob"; description := "Chin-length cut";
     face_shapes := {["oval"]}; hair_lengths := {["short"]};
     hair_textures := {["straight"]}; genders := ∅; occasions := ∅;
     maintenance := "medium"; tags := {["heat-styling"]} |}.

(** [HairstyleCatalog([afro, bob])] *)
Definition two_styles : HairstyleCatalog :=
  {| _by_name := [("afro", afro); ("bob", bob)] |}.

(** [RecommendationEngine(two_styles)] over the rationals. *)
Definition engine : recommendation.RecommendationEngine Q :=
  recommendation.__init__ two_styles None 0%Q.

(** [ClientPreferences(maintenance="low")] *)
Definition low_maintenance : preferences.ClientPreferences :=
  preferences.__post_init__ None None None None None (Some "low")
    (Some []) (Some []).

(** [ClientPreferences(hair_texture="straight", avoid=["heat-styling"])] *)
Definition no_heat : preferences.ClientPreferences :=
  preferences.__post_init__ None None (Some "straight") None None None
    (Some []) (Some ["heat-styling"]).

(** The records the two styles are read from. *)
Definition afro_record : gmap string catalog.jval :=
  {[ "name" := catalog.JStr " Afro ";
     "description" := catalog.JStr "Rounded natural shape ";
     "face_shapes" := catalog.JList ["Oval"];
     "hair_lengths" := catalog.JStr "medium";
     "hair_textures" := catalog.JList ["curly"];
     "maintenance" := catalog.JStr "Low";
     "tags" := catalog.JList ["curls"; "Wash-and-Go"] ]}.

Definition bob_record : gmap string catalog.jval :=
  {[ "name" := catalog.JStr "Bob";
     "description" := catalog.JStr "Chin-length cut";
     "face_shapes" := catalog.JList ["oval"];
     "hair_lengths" := catalog.JList ["short"];
     "hair_textures" := catalog.JList ["straight"];
     "tags" := catalog.JList ["heat-styling"] ]}.

(** A stand-in for [str] of a list. *)
Definition repr_list (items : list string) : string :=
  "[" ++ PyStr.join ", " items ++ "]".

(** The payload of the alias test. *)
Definition alias_payload : gmap string preferences.pyval :=
  {[ "face_shape" := preferences.PStr "Heart";
     "hair_length" := preferences.PStr "Short";
     "tags" := preferences.PSeq ["Volume"];
     "avoid" := preferences.PSeq ["heat-styling"; "bold"] ]}.

End sample.

(** * Properties *)

(** ** Strings: lowercasing and stripping *)

Section StringFacts.
Import PyStr.

Lemma is_space_lower_char c : is_space (lower_char c) = is_space c.
Proof. destruct c as [[] [] [] [] [] [] [] []]; reflexivity. Qed.

Lemma lower_char_idem c : lower_char (lower_char c) = lower_char c.
Proof. destruct c as [[] [] [] [] [] [] [] []]; reflexivity. Qed.

Lemma lower_idem s : lower (lower s) = lower s.
Proof. induction s as [|c s IH]; simpl; [done|]. by rewrite lower_char_idem, IH. Qed.

Lemma lower_empty s : (lower s =? "") = (s =? "").
Proof. by destruct s. Qed.

Lemma lstrip_lower s : lstrip (lower s) = lower (lstrip s).
Proof.
  induction s as [|c s IH]; simpl; [done|].
  rewrite is_space_lower_char. by destruct (is_space c).
Qed.

Lemma rstrip_lower s : rstrip (lower s) = lower (rstrip s).
Proof.
  induction s as [|c s IH]; simpl; [done|].
  rewrite is_space_lower_char, IH, lower_empty.
  by destruct (is_space c && (rstrip s =? "")).
Qed.

Lemma strip_lower s : strip (lower s) = lower (strip s).
Proof. unfold strip. by rewrite rstrip_lower, lstrip_lower. Qed.

Lemma lstrip_idem s : lstrip (lstrip s) = lstrip s.
Proof.
  induction s as [|c s IH]; simpl; [done|].
  destruct (is_space c) eqn:E; [done|]. simpl. by rewrite E.
Qed.

Lemma rstrip_idem s : rstrip (rstrip s) = rstrip s.
Proof.
  induction s as [|c s IH]; simpl; [done|].
  destruct (is_space c && (rstrip s =? "")) eqn:E; [done|].
  simpl. by rewrite IH, E.
Qed.

(** Removing leading white space creates no trailing white space. *)
Lemma rstrip_lstrip_fixed s : rstrip s = s -> rstrip (lstrip s) = lstrip s.
Proof.
  induction s as [|c s IH]; simpl; [done|].
  destruct (is_space c && (rstrip s =? "")) eqn:E; [done|].
  intros [= Hs]. destruct (is_space c) eqn:Ec.
  - by apply IH.
  - simpl. by rewrite Ec, Hs.
Qed.

Lemma strip_idem s : strip (strip s) = strip s.
Proof.
  unfold strip.
  rewrite (rstrip_lstrip_fixed (rstrip s)) by apply rstrip_idem.
  apply lstrip_idem.
Qed.

(** The normal form [strip().lower()] is a fixed point of both steps. *)
Lemma strip_normal s : strip (lower (strip s)) = lower (strip s).
Proof. by rewrite strip_lower, strip_idem. Qed.

Lemma lower_strip_normal s : lower (strip (lower (strip s))) = lower (strip s).
Proof. by rewrite strip_normal, lower_idem. Qed.

Lemma truthy_lower s : truthy (lower s) = truthy s.
Proof. unfold truthy. by rewrite lower_empty. Qed.

End StringFacts.

(** ** Preference normalisation *)

Section NormalisationFacts.
Import PyStr preferences.

Lemma _normalise_value_idem v :
  _normalise_value (_normalise_value v) = _normalise_value v.
Proof.
  destruct v as [v|]; simpl; [|done].
  destruct (truthy (lower (strip v))) eqn:E; simpl; [|done].
  by rewrite lower_strip_normal, E.
Qed.

(** The special case for an empty iterable agrees with the comprehension. *)
Lemma _normalise_keywords_items items :
  _normalise_keywords (Some items) =
  list_to_set (map (fun item => lower (strip item))
                   (List.filter (fun item => truthy (strip item)) items)).
Proof. by destruct items. Qed.

Lemma elem_of_normalise_keywords x items :
  x ∈ _normalise_keywords (Some items) <->
  exists item, item ∈ items /\ truthy (strip item) = true /\ x = lower (strip item).
Proof.
  rewrite _normalise_keywords_items, elem_of_list_to_set, list_elem_of_In, in_map_iff.
  split.
  - intros (item & <- & Hin). apply filter_In in Hin as [Hin Ht].
    exists item. by rewrite list_elem_of_In.
  - intros (item & Hin & Ht & ->). exists item. split; [done|].
    apply filter_In. by rewrite <-list_elem_of_In.
Qed.

(** Every member of a normalised set is non-empty and in normal form. *)
Lemma normalised_member x values :
  x ∈ _normalise_keywords values ->
  truthy (strip x) = true /\ lower (strip x) = x.
Proof.
  destruct values as [items|]; [|set_solver].
  intros (item & _ & Ht & ->)%elem_of_normalise_keywords.
  rewrite strip_normal, truthy_lower, lower_idem. done.
Qed.

Section SetOrder.
Variable set_iter : gset string -> list string.
Hypothesis set_iter_elements : forall X, set_iter X ≡ₚ elements X.

Lemma elem_of_set_iter x X : x ∈ set_iter X <-> x ∈ X.
Proof. by rewrite set_iter_elements, elem_of_elements. Qed.

(** Re-normalising a set whose members are all normal gives it back. *)
Lemma _normalise_keywords_fixed X :
  (forall x, x ∈ X -> truthy (strip x) = true /\ lower (strip x) = x) ->
  _normalise_keywords (Some (set_iter X)) = X.
Proof.
  intros HX. apply set_eq. intros x.
  rewrite elem_of_normalise_keywords. split.
  - intros (item & Hin%elem_of_set_iter & _ & ->).
    by rewrite (proj2 (HX _ Hin)).
  - intros Hin. exists x. rewrite elem_of_set_iter.
    destruct (HX _ Hin) as [? ?]. done.
Qed.

Lemma _normalise_keywords_idem values :
  _normalise_keywords (Some (set_iter (_normalise_keywords values)))
  = _normalise_keywords values.
Proof. apply _normalise_keywords_fixed. intros x. apply normalised_member. Qed.

Lemma _normalise_keywords_union values extra :
  _normalise_keywords
    (Some (set_iter (_normalise_keywords values ∪ _normalise_keywords extra)))
  = _normalise_keywords values ∪ _normalise_keywords extra.
Proof.
  apply _normalise_keywords_fixed.
  intros x [Hx|Hx]%elem_of_union; eapply normalised_member; eassumption.
Qed.
End SetOrder.

End NormalisationFacts.

Section PreferenceTheorems.
Import PyStr preferences.

(** C5. Normalisation is idempotent: normalising a normalised scalar gives
    the same scalar, normalising a normalised set (iterated in whatever
    order the runtime picks) gives the same set, and constructing
    [ClientPreferences] from the fields of a constructed
    [ClientPreferences] gives an equal value. *)
Theorem normalisation_idempotent (set_iter : gset string -> list string) :
  (forall X, set_iter X ≡ₚ elements X) ->
  (forall value, _normalise_value (_normalise_value value) = _normalise_value value)
  /\ (forall values,
        _normalise_keywords (Some (set_iter (_normalise_keywords values)))
        = _normalise_keywords values)
  /\ (forall fs hl ht g o m kw av,
        rebuild set_iter (__post_init__ fs hl ht g o m kw av)
        = __post_init__ fs hl ht g o m kw av).
Proof.
  intros Hiter. split; [|split].
  - apply _normalise_value_idem.
  - intros values. by apply _normalise_keywords_idem.
  - intros fs hl ht g o m kw av. unfold rebuild, __post_init__.
    cbn [face_shape hair_length hair_texture gender occasion maintenance
         keywords avoid].
    rewrite !_normalise_value_idem, !_normalise_keywords_idem by done.
    reflexivity.
Qed.

Lemma normalisation_idempotent_witness :
  rebuild elements
    (__post_init__ (Some "  Oval ") None None None None (Some "LOW")
                   (Some [" Curls"; "  "; "curls"]) None)
  = __post_init__ (Some "  Oval ") None None None None (Some "LOW")
                  (Some [" Curls"; "  "; "curls"]) None.
Proof.
  apply (normalisation_idempotent elements).
  intros X. reflexivity.
Defined.

(** C10. [merge_keywords] returns a value whose keywords are the original
    keywords united with the normalised extra ones and whose seven other
    fields are those of the original, which is a value the function only
    reads. *)
Theorem merge_keywords_frame (set_iter : gset string -> list string)
    fs hl ht g o m kw av (extra : option (list string)) :
  (forall X, set_iter X ≡ₚ elements X) ->
  let self := __post_init__ fs hl ht g o m kw av in
  let merged := merge_keywords set_iter self extra in
  keywords merged = keywords self ∪ _normalise_keywords extra
  /\ face_shape merged = face_shape self
  /\ hair_length merged = hair_length self
  /\ hair_texture merged = hair_texture self
  /\ gender merged = gender self
  /\ occasion merged = occasion self
  /\ maintenance merged = maintenance self
  /\ avoid merged = avoid self.
Proof.
  intros Hiter self merged. subst self merged.
  unfold merge_keywords, __post_init__.
  cbn [face_shape hair_length hair_texture gender occasion maintenance
       keywords avoid].
  rewrite !_normalise_value_idem.
  rewrite _normalise_keywords_union, _normalise_keywords_idem by done.
  repeat split.
Qed.

Lemma merge_keywords_frame_witness :
  let self := __post_init__ (Some "Oval") None None None None None
                            (Some ["Volume"]) (Some ["Bold"]) in
  let merged := merge_keywords elements self (Some [" Curls "; "volume"]) in
  keywords merged = keywords self ∪ _normalise_keywords (Some [" Curls "; "volume"])
  /\ face_shape merged = face_shape self
  /\ hair_length merged = hair_length self
  /\ hair_texture merged = hair_texture self
  /\ gender merged = gender self
  /\ occasion merged = occasion self
  /\ maintenance merged = maintenance self
  /\ avoid merged = avoid self.
Proof.
  apply (merge_keywords_frame elements).
  intros X. reflexivity.
Defined.

End PreferenceTheorems.

(** ** The catalog *)

Section CatalogFacts.
Import PyStr catalog.

Lemma values_entries styles : PyDict.values (entries styles) = styles.
Proof.
  unfold PyDict.values, entries. induction styles as [|s l IH]; simpl; [done|].
  by rewrite IH.
Qed.

Lemma get_entries_None k styles :
  PyDict.get k (entries styles) = None <-> k ∉ map key_of styles.
Proof.
  induction styles as [|s l IH]; simpl.
  - split; [intros _; apply not_elem_of_nil | done].
  - rewrite not_elem_of_cons. destruct (String.eqb_spec (key_of s) k) as [->|Hne].
    + split; [done | intros [? _]; done].
    + rewrite IH. split; [intros ?; split; [congruence | done] | intros [_ ?]; done].
Qed.

Lemma contains_entries k styles :
  PyDict.contains k (entries styles) = bool_decide (k ∈ map key_of styles).
Proof.
  unfold PyDict.contains. destruct (PyDict.get k (entries styles)) eqn:E.
  - symmetry. apply bool_decide_eq_true. destruct (decide (k ∈ map key_of styles)); [done|].
    apply get_entries_None in n. congruence.
  - symmetry. apply bool_decide_eq_false. by apply get_entries_None.
Qed.

Lemma set_entries_fresh style styles :
  key_of style ∉ map key_of styles ->
  PyDict.set (key_of style) style (entries styles) = entries (styles ++ [style]).
Proof.
  induction styles as [|s l IH]; simpl; [done|].
  rewrite not_elem_of_cons. intros [Hne Hnin].
  destruct (String.eqb_spec (key_of s) (key_of style)) as [Heq|_]; [congruence|].
  by rewrite IH.
Qed.

Lemma get_entries_Some style styles :
  NoDup (map key_of styles) -> style ∈ styles ->
  PyDict.get (key_of style) (entries styles) = Some style.
Proof.
  induction styles as [|s l IH]; simpl.
  - intros _ Hin. by apply elem_of_nil in Hin.
  - intros [Hnin Hnd]%NoDup_cons [->|Hin]%elem_of_cons.
    + by rewrite String.eqb_refl.
    + destruct (String.eqb_spec (key_of s) (key_of style)) as [Heq|_]; [|by apply IH].
      exfalso. apply Hnin. rewrite Heq. apply list_elem_of_In, in_map.
      by apply list_elem_of_In.
Qed.

(** The loop stores every remaining style when all keys stay distinct. *)
Lemma init_loop_distinct rest : forall seen,
  NoDup (map key_of (seen ++ rest)) ->
  init_loop (entries seen) rest = inr (entries (seen ++ rest)).
Proof.
  induction rest as [|style rest IH]; intros seen Hnd; simpl.
  - by rewrite app_nil_r.
  - fold (key_of style). rewrite contains_entries.
    assert (Hfresh : key_of style ∉ map key_of seen).
    { rewrite map_app in Hnd. apply NoDup_app in Hnd as (_ & Hdisj & _).
      intros Hin. apply (Hdisj _ Hin). simpl. apply elem_of_cons. by left. }
    rewrite bool_decide_eq_false_2 by done.
    rewrite set_entries_fresh by done.
    rewrite (IH (seen ++ [style])); rewrite <-app_assoc; simpl; done.
Qed.

(** The loop stops at the first style whose key has been stored. *)
Lemma init_loop_duplicate rest : forall seen,
  NoDup (map key_of seen) ->
  ~ NoDup (map key_of (seen ++ rest)) ->
  exists mid style post,
    rest = mid ++ style :: post
    /\ NoDup (map key_of (seen ++ mid))
    /\ key_of style ∈ map key_of (seen ++ mid)
    /\ init_loop (entries seen) rest
       = inl (ValueError ("Duplicate hairstyle: " ++ name style)).
Proof.
  induction rest as [|style rest IH]; intros seen Hseen Hdup; simpl.
  - rewrite app_nil_r in Hdup. done.
  - fold (key_of style). rewrite contains_entries.
    destruct (decide (key_of style ∈ map key_of seen)) as [Hin|Hfresh].
    + exists [], style, rest. rewrite app_nil_r, bool_decide_eq_true_2 by done. done.
    + rewrite bool_decide_eq_false_2 by done.
      rewrite set_entries_fresh by done.
      destruct (IH (seen ++ [style])) as (mid & dup & post & -> & Hnd & Hin & Hrun).
      * rewrite map_app. apply NoDup_app. split; [done|]. split.
        -- intros k Hk [->|Hk']%elem_of_cons; [done|]. by apply elem_of_nil in Hk'.
        -- apply NoDup_singleton.
      * by rewrite <-app_assoc.
      * exists (style :: mid), dup, post.
        rewrite <-app_assoc in Hnd, Hin. simpl in Hnd, Hin. done.
Qed.

(** A catalog that was constructed holds its input, with distinct keys. *)
Lemma init_inversion styles c :
  __init__ styles = inr c ->
  NoDup (map key_of styles) /\ _by_name c = entries styles.
Proof.
  unfold __init__. intros Hrun.
  destruct (decide (NoDup (map key_of styles))) as [Hnd|Hdup].
  - split; [done|]. change (entries []) with (@nil (string * Hairstyle)) in *.
    pose proof (init_loop_distinct styles [] Hnd) as Hok. simpl in Hok.
    rewrite Hok in Hrun. by injection Hrun as <-.
  - destruct (init_loop_duplicate styles [] (NoDup_nil_2) Hdup)
      as (mid & dup & post & _ & _ & _ & Hfail).
    simpl in Hfail. rewrite Hfail in Hrun. done.
Qed.

End CatalogFacts.

Section CatalogTheorems.
Import PyStr catalog.

(** C6. Constructing a catalog from styles whose lowercased names are
    pairwise distinct succeeds and iterates them in input order; when two
    styles share a lowercased name it fails with the error
    "Duplicate hairstyle: NAME", where NAME is the name of the first style
    whose lowercased name was already stored. *)
Theorem catalog_init_duplicates (hairstyles : list Hairstyle) :
  (NoDup (map (fun style => lower (name style)) hairstyles) ->
     exists c, __init__ hairstyles = inr c /\ __iter__ c = hairstyles)
  /\ (~ NoDup (map (fun style => lower (name style)) hairstyles) ->
     exists before style after,
       hairstyles = before ++ style :: after
       /\ NoDup (map (fun style => lower (name style)) before)
       /\ lower (name style) ∈ map (fun style => lower (name style)) before
       /\ __init__ hairstyles
          = inl (ValueError ("Duplicate hairstyle: " ++ name style))).
Proof.
  change (fun style => lower (name style)) with key_of.
  change (lower (name ?s)) with (key_of s).
  split.
  - intros Hnd. exists {| _by_name := entries hairstyles |}.
    unfold __init__, __iter__.
    pose proof (init_loop_distinct hairstyles [] Hnd) as Hok. simpl in Hok.
    rewrite Hok. simpl. by rewrite values_entries.
  - intros Hdup.
    destruct (init_loop_duplicate hairstyles [] NoDup_nil_2 Hdup)
      as (mid & style & post & Heq & Hnd & Hin & Hfail).
    exists mid, style, post. unfold __init__. simpl in *.
    fold (key_of style). by rewrite Hfail.
Qed.

Lemma catalog_init_duplicates_witness :
  let bob := {| name := "Bob"; description := ""; face_shapes := ∅;
                hair_lengths := ∅; hair_textures := ∅; genders := ∅;
                occasions := ∅; maintenance := "low"; tags := ∅ |} in
  let afro := {| name := "Afro"; description := ""; face_shapes := ∅;
                 hair_lengths := ∅; hair_textures := ∅; genders := ∅;
                 occasions := ∅; maintenance := "high"; tags := ∅ |} in
  let BOB := {| name := "BOB"; description := ""; face_shapes := ∅;
                hair_lengths := ∅; hair_textures := ∅; genders := ∅;
                occasions := ∅; maintenance := "low"; tags := ∅ |} in
  (exists c, __init__ [bob; afro] = inr c /\ __iter__ c = [bob; afro])
  /\ (exists before style after,
        [bob; afro; BOB] = before ++ style :: after
        /\ NoDup (map (fun style => lower (name style)) before)
        /\ lower (name style) ∈ map (fun style => lower (name style)) before
        /\ __init__ [bob; afro; BOB]
           = inl (ValueError ("Duplicate hairstyle: " ++ name style))).
Proof.
  intros bob afro BOB. split.
  - apply (proj1 (catalog_init_duplicates [bob; afro])).
    apply (bool_decide_unpack _). vm_compute. exact I.
  - apply (proj2 (catalog_init_duplicates [bob; afro; BOB])).
    apply (bool_decide_unpack _). vm_compute. exact I.
Defined.

(** C8. [find] is a case-insensitive exact lookup: a requested name whose
    lowercased form is that of a catalog entry returns that entry, and a
    name that matches no entry fails with the error
    "Unknown hairstyle: NAME" carrying the name as it was requested. *)
Theorem find_case_insensitive (hairstyles : list Hairstyle)
    (c : HairstyleCatalog) (requested : string) :
  __init__ hairstyles = inr c ->
  (forall style, style ∈ __iter__ c ->
     lower requested = lower (name style) ->
     find c requested = inr style)
  /\ ((forall style, style ∈ __iter__ c ->
         lower requested <> lower (name style)) ->
      find c requested = inl (KeyError ("Unknown hairstyle: " ++ requested))).
Proof.
  intros [Hnd Hby]%init_inversion. unfold find, __iter__. rewrite Hby.
  rewrite values_entries. split.
  - intros style Hin ->. fold (key_of style).
    by rewrite get_entries_Some.
  - intros Hnone.
    assert (PyDict.get (lower requested) (entries hairstyles) = None) as ->; [|done].
    apply get_entries_None.
    intros (style & Heq & Hin)%list_elem_of_In%in_map_iff.
    apply (Hnone style); [by apply list_elem_of_In | done].
Qed.

Lemma find_case_insensitive_witness :
  let bob := {| name := "Bob"; description := ""; face_shapes := ∅;
                hair_lengths := ∅; hair_textures := ∅; genders := ∅;
                occasions := ∅; maintenance := "low"; tags := ∅ |} in
  let c := {| _by_name := [("bob", bob)] |} in
  find c "BOB" = inr bob
  /\ find c "Afro" = inl (KeyError "Unknown hairstyle: Afro").
Proof.
  intros bob c.
  pose proof (fun r => find_case_insensitive [bob] c r eq_refl) as Hfind.
  split.
  - apply (proj1 (Hfind "BOB") bob); [apply list_elem_of_here | reflexivity].
  - apply (proj2 (Hfind "Afro")).
    intros style ->%list_elem_of_singleton. vm_compute. discriminate.
Defined.

End CatalogTheorems.

(** ** Payloads *)

Section FromDictTheorems.
Import PyStr preferences.

(** [from_dict] pops none of the scalar fields. *)
Lemma scalar_field_kept key :
  key ∈ scalar_fields ->
  "keywords" <> key /\ "tags" <> key /\ "avoid" <> key.
Proof.
  unfold scalar_fields. rewrite !elem_of_cons, elem_of_nil. intros Hkey.
  repeat (destruct Hkey as [->|Hkey]; [repeat split; discriminate|]).
  destruct Hkey.
Qed.

(** The dictionary [from_dict] passes on once [keywords] was falsy and
    [tags] held [ts]. *)
Lemma from_dict_falsy_unfold payload kw ts :
  payload !! "keywords" = Some kw -> pyval_truthy kw = false ->
  payload !! "tags" = Some (PSeq ts) ->
  exists data,
    from_dict payload = call_kwargs data
    /\ data !! "keywords" = Some (PSeq ts)
    /\ dom data ⊆ {["keywords"; "avoid"]} ∪ (dom payload ∖ {["tags"]})
    /\ forall key, key ∈ scalar_fields -> data !! key = payload !! key.
Proof.
  intros Hkw Hfalsy Htags. unfold from_dict, pop. rewrite Hkw. simpl.
  rewrite Hfalsy, (lookup_delete_ne payload "keywords" "tags"), Htags by done.
  simpl.
  set (rest := delete "avoid" (delete "tags" (delete "keywords" payload))).
  assert (Hrest : forall key, key ∈ scalar_fields -> rest !! key = payload !! key).
  { intros key (? & ? & ?)%scalar_field_kept. unfold rest.
    by rewrite !lookup_delete_ne. }
  destruct (is_PNone _); eexists; (split; [reflexivity|]); split_and!.
  - by rewrite lookup_insert_eq.
  - unfold rest. rewrite dom_insert, !dom_delete. set_solver.
  - intros key Hkey. destruct (scalar_field_kept key Hkey) as (? & ? & ?).
    rewrite lookup_insert_ne by done. auto.
  - rewrite lookup_insert_ne by done. by rewrite lookup_insert_eq.
  - unfold rest. rewrite !dom_insert, !dom_delete. set_solver.
  - intros key Hkey. destruct (scalar_field_kept key Hkey) as (? & ? & ?).
    rewrite !lookup_insert_ne by done. auto.
Qed.

Lemma call_kwargs_keywords data p :
  call_kwargs data = inr p ->
  keywords p = _normalise_keywords (iterable_arg data "keywords").
Proof.
  unfold call_kwargs. case_bool_decide; [|done].
  repeat (match goal with |- context [scalar_arg ?d ?k] => destruct (scalar_arg d k) end;
          [done|]).
  by intros [= <-].
Qed.

Lemma scalar_arg_ok data key :
  (forall items, data !! key <> Some (PSeq items)) ->
  exists v, scalar_arg data key = inr v.
Proof.
  unfold scalar_arg. intros Hk. destruct (data !! key) as [[| |items]|]; eauto.
  by destruct (Hk items).
Qed.

(** C9. When the payload maps [keywords] to a falsy value (an empty list,
    say) and [tags] to a collection, [from_dict] takes the keywords from
    [tags]: the preferences it returns have the normalised [tags] values as
    keywords, and it does return preferences for every payload whose other
    keys are field names with values of the annotated type. *)
Theorem from_dict_falsy_keywords_use_tags
    (payload : gmap string pyval) (kw : pyval) (ts : list string) :
  payload !! "keywords" = Some kw -> pyval_truthy kw = false ->
  payload !! "tags" = Some (PSeq ts) ->
  (forall p, from_dict payload = inr p ->
     keywords p = _normalise_keywords (Some ts))
  /\ (accepted payload -> exists p, from_dict payload = inr p).
Proof.
  intros Hkw Hfalsy Htags.
  destruct (from_dict_falsy_unfold payload kw ts Hkw Hfalsy Htags)
    as (data & -> & Hdata & Hdom & Hscalar).
  split.
  - intros p Hp%call_kwargs_keywords. rewrite Hp.
    unfold iterable_arg. by rewrite Hdata.
  - intros [Hkeys Htyped]. unfold call_kwargs.
    rewrite bool_decide_eq_true_2.
    2:{ etrans; [exact Hdom|]. unfold field_names in *. set_solver. }
    assert (Hok : forall key, key ∈ scalar_fields -> exists v, scalar_arg data key = inr v).
    { intros key Hkey. apply scalar_arg_ok. intros items.
      rewrite Hscalar by done. by apply Htyped. }
    destruct (Hok "face_shape") as [? ->]; [unfold scalar_fields; set_solver|].
    destruct (Hok "hair_length") as [? ->]; [unfold scalar_fields; set_solver|].
    destruct (Hok "hair_texture") as [? ->]; [unfold scalar_fields; set_solver|].
    destruct (Hok "gender") as [? ->]; [unfold scalar_fields; set_solver|].
    destruct (Hok "occasion") as [? ->]; [unfold scalar_fields; set_solver|].
    destruct (Hok "maintenance") as [? ->]; [unfold scalar_fields; set_solver|].
    eauto.
Qed.

Lemma from_dict_falsy_keywords_use_tags_witness :
  let payload : gmap string pyval :=
    {[ "keywords" := PSeq []; "tags" := PSeq ["Volume"];
       "face_shape" := PStr "Heart" ]} in
  exists p, from_dict payload = inr p
            /\ keywords p = _normalise_keywords (Some ["Volume"]).
Proof.
  intros payload.
  destruct (from_dict_falsy_keywords_use_tags payload (PSeq []) ["Volume"]
              eq_refl eq_refl eq_refl) as [Hkeywords Hreturns].
  destruct Hreturns as [p Hp].
  - split.
    + apply (bool_decide_unpack _). vm_compute. exact I.
    + intros key items (Hk & Ht & _)%scalar_field_kept.
      unfold payload. rewrite !lookup_insert_Some, lookup_singleton_Some.
      intros [[? _]|[_ [[? _]|[_ [_ [=]]]]]]; done.
  - exists p. split; [exact Hp | by apply Hkeywords].
Defined.

End FromDictTheorems.

(** ** Sorting *)

Section SortFacts.
Context {A : Type} (lt : A -> A -> bool).
Hypothesis lt_asym : forall a b, lt a b = true -> lt b a = false.
Variable reverse : bool.

Local Abbreviation insert := (PySort.insert lt reverse).
Local Abbreviation sorted := (PySort.sorted lt reverse).
Local Abbreviation in_order := (PySort.in_order lt reverse).

Lemma insert_Permutation x l : insert x l ≡ₚ x :: l.
Proof.
  induction l as [|y l IH]; simpl; [done|].
  destruct (if reverse then lt x y else lt y x); [|done].
  rewrite IH. apply Permutation_swap.
Qed.

Lemma sorted_Permutation l : sorted l ≡ₚ l.
Proof.
  induction l as [|x l IH]; simpl; [done|].
  by rewrite insert_Permutation, IH.
Qed.

Lemma elem_of_sorted x l : x ∈ sorted l <-> x ∈ l.
Proof. by rewrite sorted_Permutation. Qed.

Lemma HdRel_insert y x l :
  HdRel in_order y l -> in_order y x -> HdRel in_order y (insert x l).
Proof.
  intros Hhd Hyx. destruct l as [|z l]; simpl; [by constructor|].
  apply HdRel_inv in Hhd.
  destruct (if reverse then lt x z else lt z x); by constructor.
Qed.

Lemma Sorted_insert x l : Sorted in_order l -> Sorted in_order (insert x l).
Proof.
  induction l as [|y l IH]; simpl; intros Hl.
  - by repeat constructor.
  - apply Sorted_inv in Hl as [Hl Hhd].
    destruct (if reverse then lt x y else lt y x) eqn:E.
    + constructor; [by apply IH|]. apply HdRel_insert; [done|].
      unfold PySort.in_order. destruct reverse; by apply lt_asym.
    + constructor; [by constructor|]. by constructor.
Qed.

Lemma Sorted_sorted l : Sorted in_order (sorted l).
Proof.
  induction l as [|x l IH]; simpl; [constructor|]. by apply Sorted_insert.
Qed.

End SortFacts.

Lemma Sorted_lookup_adjacent {A} (R : A -> A -> Prop) (l : list A) :
  Sorted R l ->
  forall i a b, l !! i = Some a -> l !! S i = Some b -> R a b.
Proof.
  induction 1 as [|x l Hl IH Hhd]; intros i a b Ha Hb; [done|].
  destruct i as [|i]; simpl in *.
  - injection Ha as ->. destruct l as [|y l]; [done|].
    injection Hb as ->. by apply HdRel_inv in Hhd.
  - by apply (IH i).
Qed.

(** ** The order on strings *)

Section StringOrder.

Lemma ascii_compare_trans a b c o :
  Ascii.compare a b = o -> Ascii.compare b c = o -> Ascii.compare a c = o.
Proof.
  unfold Ascii.compare. destruct o.
  - rewrite !N.compare_eq_iff. congruence.
  - rewrite !N.compare_lt_iff. apply N.lt_trans.
  - rewrite !N.compare_gt_iff. intros ? ?. by apply N.lt_trans with (N_of_ascii b).
Qed.

Lemma string_compare_Lt_trans a : forall b c,
  String.compare a b = Lt -> String.compare b c = Lt -> String.compare a c = Lt.
Proof.
  induction a as [|x a IH]; intros [|y b] [|z c]; simpl; try done.
  destruct (Ascii.compare x y) eqn:Exy; [| |done];
    destruct (Ascii.compare y z) eqn:Eyz; try done.
  - apply Ascii.compare_eq_iff in Exy as ->. rewrite Eyz. apply IH.
  - apply Ascii.compare_eq_iff in Exy as ->. by rewrite Eyz.
  - apply Ascii.compare_eq_iff in Eyz as <-. by rewrite Exy.
  - by rewrite (ascii_compare_trans x y z Lt).
Qed.

Lemma string_compare_refl a : String.compare a a = Eq.
Proof.
  induction a as [|x a IH]; simpl; [done|].
  unfold Ascii.compare. by rewrite N.compare_refl.
Qed.

Lemma string_lt_asym a b : PyStr.lt a b = true -> PyStr.lt b a = false.
Proof.
  unfold PyStr.lt, String.ltb. rewrite (String.compare_antisym b a).
  by destruct (String.compare a b).
Qed.

Lemma string_le_not_lt a b : PyStr.le a b = negb (PyStr.lt b a).
Proof.
  unfold PyStr.le, PyStr.lt, String.leb, String.ltb.
  rewrite (String.compare_antisym b a). by destruct (String.compare a b).
Qed.

Lemma string_in_order_le a b :
  PySort.in_order PyStr.lt false a b <-> PyStr.le a b = true.
Proof.
  unfold PySort.in_order. rewrite string_le_not_lt.
  by destruct (PyStr.lt b a).
Qed.

Lemma string_le_cases a b :
  PyStr.le a b = true <-> a = b \/ String.compare a b = Lt.
Proof.
  unfold PyStr.le, String.leb. destruct (String.compare a b) eqn:E.
  - apply String.compare_eq_iff in E. naive_solver.
  - naive_solver.
  - split; [done|]. intros [->|?]; [|done]. by rewrite string_compare_refl in E.
Qed.

Lemma string_in_order_trans : Transitive (PySort.in_order PyStr.lt false).
Proof.
  intros a b c. rewrite !string_in_order_le, !string_le_cases.
  intros [->|Hab] [->|Hbc]; eauto using string_compare_Lt_trans.
Qed.

Lemma string_in_order_antisym : AntiSymm (=) (PySort.in_order PyStr.lt false).
Proof.
  intros a b. rewrite !string_in_order_le. apply String.leb_antisym.
Qed.

(** [sorted] returns the same list for every order of the same items. *)
Lemma sorted_strings_unique (l1 l2 : list string) :
  l1 ≡ₚ l2 -> PySort.sorted PyStr.lt false l1 = PySort.sorted PyStr.lt false l2.
Proof.
  intros Hperm.
  apply (@Sorted_unique _ _ string_in_order_trans string_in_order_antisym).
  - apply Sorted_sorted, string_lt_asym.
  - apply Sorted_sorted, string_lt_asym.
  - by rewrite !sorted_Permutation.
Qed.

End StringOrder.

(** ** Scoring and ranking *)

(** The rationals are ordered the way floats other than NaN are. *)
#[export] Instance NumOrder_Q : NumOrder Q.
Proof.
  split; simpl.
  - intros a b. apply eq_true_iff_eq. rewrite !Qeq_bool_iff.
    split; apply Qeq_sym.
  - intros a b. rewrite negb_true_iff, negb_false_iff.
    intros Hba. apply Qle_bool_iff. destruct (Qlt_le_dec a b) as [Hlt|Hle].
    + by apply Qlt_le_weak.
    + apply Qle_bool_iff in Hle. congruence.
  - intros a b. destruct (Q_dec a b) as [[Hlt|Hgt]|Heq].
    + left. apply negb_true_iff. destruct (Qle_bool b a) eqn:E; [|done].
      apply Qle_bool_iff in E. by apply Qle_not_lt in E.
    + right; right. apply negb_true_iff. destruct (Qle_bool a b) eqn:E; [|done].
      apply Qle_bool_iff in E. by apply Qle_not_lt in E.
    + right; left. by apply Qeq_bool_iff.
Qed.

Section ScoreFacts.
Import PyStr catalog preferences recommendation.
Context {F : Type} `{Num F}.
Variable set_iter : gset string -> list string.
Implicit Types (self : RecommendationEngine F) (style : Hairstyle)
               (p : ClientPreferences) (r : Recommendation F).

(** An engine built by [__init__] holds every key [_score] subscripts. *)
Lemma init_weights_lookup c (overrides : option (gmap string F)) m key :
  key ∈ ["face_shape"; "hair_length"; "hair_texture"; "gender"; "occasion";
         "maintenance"; "keyword"; "avoid"] ->
  is_Some (weights (__init__ c overrides m) !! key).
Proof.
  intros Hkey. unfold __init__. simpl. apply lookup_union_is_Some. right.
  rewrite !elem_of_cons, elem_of_nil in Hkey.
  repeat (destruct Hkey as [->|Hkey]; [by eexists|]). destruct Hkey.
Qed.

Lemma score_hairstyle self style p :
  hairstyle (_score set_iter self style p) = style.
Proof. reflexivity. Qed.

Lemma startswith_conflict rest :
  startswith ("conflicts with avoid list: " ++ rest) "conflicts with" = true.
Proof. reflexivity. Qed.

(** A style that carries an avoided tag is scored with a conflict reason. *)
Lemma score_has_conflict self style p :
  avoid p ∩ tags style <> ∅ ->
  _has_conflict (_score set_iter self style p) = true.
Proof.
  intros Hconflict.
  assert (Havoid : avoid p <> ∅) by set_solver.
  unfold _has_conflict, _score. cbv zeta.
  rewrite (bool_decide_eq_true_2 (avoid p <> ∅)) by done.
  rewrite (bool_decide_eq_true_2 (avoid p ∩ tags style <> ∅)) by done.
  cbn [reasons credit snd]. rewrite existsb_app. cbn [existsb].
  by rewrite startswith_conflict, orb_true_r.
Qed.

(** What [rank] keeps: scored catalog entries above the floor that carry
    no conflict reason. *)
Lemma elem_of_rank self p r :
  r ∈ rank set_iter self p ->
  exists style,
    style ∈ catalog.__iter__ (catalog self)
    /\ r = _score set_iter self style p
    /\ fge (score r) (minimum_score self) = true
    /\ _has_conflict r = false.
Proof.
  unfold rank. rewrite elem_of_sorted, list_elem_of_In, filter_In, in_map_iff.
  intros [(style & <- & Hin) [Hfloor Hclean%negb_true_iff]%andb_prop].
  exists style. by rewrite list_elem_of_In.
Qed.

End ScoreFacts.

Section RankTheorems.
Import PyStr catalog preferences recommendation.
Context {F : Type} `{Num F}.

(** C2. A hairstyle whose tags meet the avoid set of the preferences is
    the hairstyle of no recommendation that [rank] returns, whatever the
    weights, the other matches and the minimum score; this holds in
    particular of every catalog entry. *)
Theorem rank_excludes_conflicts (set_iter : gset string -> list string)
    (self : RecommendationEngine F) (preferences : ClientPreferences)
    (style : Hairstyle) :
  avoid preferences ∩ tags style <> ∅ ->
  forall r, r ∈ rank set_iter self preferences -> hairstyle r <> style.
Proof.
  intros Hconflict r (entry & _ & -> & _ & Hclean)%elem_of_rank Heq.
  rewrite score_hairstyle in Heq. subst entry.
  rewrite score_has_conflict in Hclean; done.
Qed.

(** C4. [recommend] with a positive limit returns the first
    [min(limit, len)] entries of [rank], and with a limit of zero or less
    it returns the list of [rank] as it is. *)
Theorem recommend_limit (set_iter : gset string -> list string)
    (self : RecommendationEngine F) (preferences : ClientPreferences)
    (limit : Z) :
  let ranked := rank set_iter self preferences in
  ((0 < limit)%Z ->
     recommend set_iter self preferences limit
     = take (Nat.min (Z.to_nat limit) (length ranked)) ranked)
  /\ ((limit <= 0)%Z -> recommend set_iter self preferences limit = ranked).
Proof.
  intros ranked. unfold recommend, slice_to. fold ranked. split; intros Hlimit.
  - assert ((0 <? limit)%Z = true) as -> by lia.
    assert ((0 <=? limit)%Z = true) as -> by lia.
    destruct (Nat.le_ge_cases (Z.to_nat limit) (length ranked)) as [Hle|Hge].
    + by rewrite Nat.min_l.
    + rewrite Nat.min_r by done. by rewrite !take_ge.
  - by assert ((0 <? limit)%Z = false) as -> by lia.
Qed.

(** C7. [rank] is deterministic: for a fixed engine (catalog, weights,
    minimum score) and fixed preferences its result does not depend on the
    order in which the runtime iterates sets, the one thing the language
    leaves open; two invocations return equal lists. *)
Theorem rank_deterministic (iter1 iter2 : gset string -> list string)
    (self : RecommendationEngine F) (preferences : ClientPreferences) :
  (forall X, iter1 X ≡ₚ elements X) ->
  (forall X, iter2 X ≡ₚ elements X) ->
  rank iter1 self preferences = rank iter2 self preferences.
Proof.
  intros H1 H2.
  assert (Hjoin : forall X, sorted_join iter1 X = sorted_join iter2 X).
  { intros X. unfold sorted_join. f_equal. apply sorted_strings_unique.
    by rewrite H1, H2. }
  assert (Hscore : forall style,
            _score iter1 self style preferences
            = _score iter2 self style preferences).
  { intros style. unfold _score. by rewrite !Hjoin. }
  unfold rank. do 2 f_equal. apply map_ext. intros style. apply Hscore.
Qed.

End RankTheorems.

Section RankOrder.
Import PyStr catalog preferences recommendation.
Context {F : Type} `{NumOrder F}.

Lemma key_lt_asym (a b : F * string) :
  key_lt a b = true -> key_lt b a = false.
Proof.
  unfold key_lt. rewrite (feq_sym b.1 a.1).
  destruct (feq a.1 b.1); [apply string_lt_asym | apply flt_asym].
Qed.

(** C1, as the code has it.  In the list [rank] returns, a recommendation
    and the one after it are in strictly descending score order, or have
    equal scores and case-insensitive names in descending order: the name
    of the first is not smaller than the name of the second. *)
Theorem rank_sorted_descending (set_iter : gset string -> list string)
    (self : RecommendationEngine F) (preferences : ClientPreferences)
    (i : nat) (a b : Recommendation F) :
  rank set_iter self preferences !! i = Some a ->
  rank set_iter self preferences !! S i = Some b ->
  fgt (score a) (score b) = true
  \/ (feq (score a) (score b) = true
      /\ PyStr.le (lower (name (hairstyle b))) (lower (name (hairstyle a)))
         = true).
Proof.
  intros Ha Hb.
  assert (Hord : key_lt (sort_key a) (sort_key b) = false).
  { apply (Sorted_lookup_adjacent
             (PySort.in_order (fun x y => key_lt (sort_key x) (sort_key y)) true)
             (rank set_iter self preferences)) with i; [|done..].
    apply Sorted_sorted. intros x y. apply key_lt_asym. }
  unfold key_lt, sort_key in Hord. cbn [fst snd] in Hord.
  destruct (feq (score a) (score b)) eqn:Heq.
  - right. split; [done|]. by rewrite string_le_not_lt, Hord.
  - left. unfold fgt.
    destruct (flt_total (score a) (score b)) as [Hlt|[Heq'|Hgt]]; congruence.
Qed.

End RankOrder.

(** ** The model on the sample catalog *)

Section Sample.
Import PyStr catalog preferences recommendation sample.

Lemma two_styles_constructed : catalog.__init__ [afro; bob] = inr two_styles.
Proof. reflexivity. Qed.

Lemma rank_defaults_names :
  map (fun r => name (hairstyle r)) (rank elements engine defaults)
  = ["Bob"; "Afro"].
Proof. vm_compute. reflexivity. Qed.

Lemma rank_sorted_descending_witness :
  fgt (score (_score elements engine bob defaults))
      (score (_score elements engine afro defaults)) = true
  \/ (feq (score (_score elements engine bob defaults))
          (score (_score elements engine afro defaults)) = true
      /\ PyStr.le (lower (name (hairstyle (_score elements engine afro defaults))))
                  (lower (name (hairstyle (_score elements engine bob defaults))))
         = true).
Proof.
  apply (rank_sorted_descending elements engine defaults 0);
    vm_compute; reflexivity.
Defined.

(** C1 as stated fails: with no preferences both styles score 0.0 and
    [rank] returns Bob before Afro, while the statement wants the names of
    tied entries in ascending order. *)
Lemma rank_tie_order_counterexample :
  ~ (forall i a b,
       rank elements engine defaults !! i = Some a ->
       rank elements engine defaults !! S i = Some b ->
       spec_rank_order a b = true).
Proof.
  intros Hall.
  specialize (Hall 0%nat (_score elements engine bob defaults)
                   (_score elements engine afro defaults)).
  assert (Hfalse : spec_rank_order (_score elements engine bob defaults)
                     (_score elements engine afro defaults) = false)
    by (vm_compute; reflexivity).
  rewrite Hall in Hfalse; [discriminate| |]; vm_compute; reflexivity.
Qed.

Lemma rank_excludes_conflicts_witness :
  Forall (fun r => hairstyle r <> bob) (rank elements engine no_heat).
Proof.
  apply Forall_forall. intros r Hr.
  apply (rank_excludes_conflicts elements engine no_heat bob).
  - apply (bool_decide_unpack _). vm_compute. exact I.
  - exact Hr.
Defined.

Lemma recommend_limit_witness :
  recommend elements engine defaults 1
  = take (Nat.min (Z.to_nat 1) (length (rank elements engine defaults)))
         (rank elements engine defaults)
  /\ recommend elements engine defaults (-2) = rank elements engine defaults.
Proof.
  split.
  - apply (proj1 (recommend_limit elements engine defaults 1)). lia.
  - apply (proj2 (recommend_limit elements engine defaults (-2))). lia.
Defined.

Lemma rank_deterministic_witness :
  rank elements engine low_maintenance
  = rank (fun X => reverse (elements X)) engine low_maintenance.
Proof.
  apply rank_deterministic.
  - intros X. reflexivity.
  - intros X. apply reverse_Permutation.
Defined.

End Sample.

(** ** Maintenance scoring *)

Section Maintenance.
Import PyStr catalog preferences recommendation.

Lemma _normalise_value_truthy value m :
  _normalise_value value = Some m -> truthy m = true.
Proof.
  destruct value as [v|]; simpl; [|done].
  destruct (truthy (lower (strip v))) eqn:E; [|done]. by intros [= <-].
Qed.

(** The ordinal scale: low 0, medium 1, high 2, and nothing else. *)
Lemma maintenance_scale s n :
  _MAINTENANCE_LEVELS !! s = Some n <->
  (s = "low" /\ n = 0%Z) \/ (s = "medium" /\ n = 1%Z) \/ (s = "high" /\ n = 2%Z).
Proof.
  unfold _MAINTENANCE_LEVELS.
  rewrite !lookup_insert_Some, lookup_singleton_Some. split.
  - intros [[<- <-]|[_ [[<- <-]|[_ [<- <-]]]]]; auto.
  - intros [[-> ->]|[[-> ->]|[-> ->]]]; [by left| |]; right; split; try done.
    + by left.
    + right. by split.
Qed.

Context {F : Type} `{Num F}.

(** C3, as the code has it.  For an engine built by [__init__] and normalised
    preferences whose maintenance field is present with value [m], the
    maintenance block maps [m] and the hairstyle's maintenance through
    low=0, medium=1, high=2.  If either is not on the scale the running
    score and reasons are returned unchanged.  Otherwise distance 0 adds
    the maintenance weight [w], which the engine's dictionary holds, and the
    reason "meets [m] maintenance goal", which names the preference's value;
    distance 1 adds [w] times 0.5 and the reason
    "slightly different maintenance but still manageable"; distance 2, the
    only other one, changes nothing.  The block is a total function and its
    subscript finds the weight: no case raises. *)
Theorem score_maintenance_cases (c : HairstyleCatalog)
    (overrides : option (gmap string F)) (minimum : F)
    (style : Hairstyle) fs hl ht g o raw kw av (st : tally) (m : string) :
  let self := __init__ c overrides minimum in
  let preferences := __post_init__ fs hl ht g o raw kw av in
  preferences.maintenance preferences = Some m ->
  let w := weight self "maintenance" in
  let out := score_maintenance self style preferences st in
  weights self !! "maintenance" = Some w
  /\ (forall s n,
       _MAINTENANCE_LEVELS !! s = Some n <->
       (s = "low" /\ n = 0%Z) \/ (s = "medium" /\ n = 1%Z)
       \/ (s = "high" /\ n = 2%Z))
  /\ (_MAINTENANCE_LEVELS !! m = None
      \/ _MAINTENANCE_LEVELS !! catalog.maintenance style = None ->
      out = st)
  /\ (forall desired current,
        _MAINTENANCE_LEVELS !! m = Some desired ->
        _MAINTENANCE_LEVELS !! catalog.maintenance style = Some current ->
        (Z.abs (desired - current) = 0%Z ->
           out = (fadd st.1 w,
                  st.2 ++ [("meets " ++ m ++ " maintenance goal")%string]))
        /\ (Z.abs (desired - current) = 1%Z ->
           out = (fadd st.1 (fmul w (of_Q (1 # 2))),
                  st.2 ++ ["slightly different maintenance but still manageable"]))
        /\ (Z.abs (desired - current) = 2%Z -> out = st)
        /\ (0 <= Z.abs (desired - current) <= 2)%Z).
Proof.
  intros self preferences Hm w out.
  assert (Htruthy : truthy m = true).
  { unfold preferences, __post_init__ in Hm. simpl in Hm.
    by apply _normalise_value_truthy in Hm. }
  split.
  { destruct (init_weights_lookup c overrides minimum "maintenance") as [x Hx].
    - rewrite !elem_of_cons. auto 10.
    - subst w. unfold weight. fold self in Hx |- *. by rewrite Hx. }
  subst out. unfold score_maintenance. rewrite Hm, Htruthy.
  split; [apply maintenance_scale|]. split.
  - intros [-> | ->]; [done|]. by destruct (_MAINTENANCE_LEVELS !! m).
  - intros desired current Hd Hc. rewrite Hd, Hc. unfold credit. fold w.
    split; [|split; [|split]].
    + by intros ->.
    + by intros ->.
    + by intros ->.
    + apply maintenance_scale in Hd, Hc. lia.
Qed.

End Maintenance.

Section MaintenanceSample.
Import PyStr catalog preferences recommendation sample.

Lemma score_maintenance_cases_witness :
  score_maintenance engine afro low_maintenance (0%Q, [])
  = (fadd 0%Q (weight engine "maintenance"),
     [] ++ [("meets " ++ "low" ++ " maintenance goal")%string])
  /\ score_maintenance engine bob low_maintenance (0%Q, [])
     = (fadd 0%Q (fmul (weight engine "maintenance") (of_Q (1 # 2))),
        [] ++ ["slightly different maintenance but still manageable"]).
Proof.
  pose proof (fun style =>
    score_maintenance_cases two_styles None 0%Q style None None None None None
      (Some "low") (Some []) (Some []) (0%Q, []) "low" eq_refl) as Hcases.
  split.
  - exact (proj1 (proj2 (proj2 (proj2 (Hcases afro))) 0%Z 0%Z eq_refl eq_refl)
             eq_refl).
  - exact (proj1 (proj2 (proj2 (proj2 (proj2 (Hcases bob))) 0%Z 1%Z eq_refl eq_refl))
             eq_refl).
Defined.

(** C3 as stated fails on the reason of an exact match: a low-maintenance
    style scored for a low-maintenance preference gets the reason
    "meets low maintenance goal", not "meets exact maintenance goal". *)
Lemma maintenance_reason_counterexample :
  (score_maintenance engine afro low_maintenance (0%Q, [])).2
  = ["meets low maintenance goal"]
  /\ score_maintenance engine afro low_maintenance (0%Q, [])
     <> spec_score_maintenance engine afro low_maintenance (0%Q, []).
Proof.
  split; [reflexivity|]. vm_compute. discriminate.
Qed.

End MaintenanceSample.

(** * Further properties of the code *)

(** ** Preferences: normal forms, merging and describing *)

Section PreferenceInvariants.
Import PyStr preferences.

Lemma truthy_nonempty s : truthy s = true <-> s <> "".
Proof.
  unfold truthy. destruct (String.eqb_spec s ""); split; intros; done.
Qed.

Lemma _normalise_value_normal value v :
  _normalise_value value = Some v ->
  v <> "" /\ strip v = v /\ lower v = v.
Proof.
  intros Hv. pose proof (_normalise_value_truthy _ _ Hv) as Ht.
  destruct value as [v0|]; simpl in Hv; [|done].
  destruct (truthy (lower (strip v0))); [|done]. injection Hv as <-.
  split; [by apply truthy_nonempty|]. split; [apply strip_normal | apply lower_idem].
Qed.

Lemma _normalise_keywords_normal values x :
  x ∈ _normalise_keywords values ->
  x <> "" /\ strip x = x /\ lower x = x.
Proof.
  intros Hx. destruct (normalised_member _ _ Hx) as [Ht Hl].
  assert (strip x = x) as Hs by (rewrite <-Hl at 1; rewrite strip_normal; done).
  rewrite Hs in Ht, Hl. split; [by apply truthy_nonempty | done].
Qed.

(** Every constructed [ClientPreferences] is in normal form: a scalar
    field is [None] or a non-empty string that stripping and lowercasing
    leave alone, and so is every member of [keywords] and [avoid]. *)
Theorem preferences_normal_form fs hl ht g o m kw av :
  let p := __post_init__ fs hl ht g o m kw av in
  (forall field v,
     field ∈ [face_shape p; hair_length p; hair_texture p; gender p;
              occasion p; maintenance p] ->
     field = Some v -> v <> "" /\ strip v = v /\ lower v = v)
  /\ (forall x, x ∈ keywords p ∪ avoid p ->
        x <> "" /\ strip x = x /\ lower x = x).
Proof.
  intros p. split.
  - intros field v Hfield Hv. subst field.
    rewrite !elem_of_cons, elem_of_nil in Hfield.
    destruct Hfield as [Hf|[Hf|[Hf|[Hf|[Hf|[Hf|[]]]]]]];
      symmetry in Hf; eapply _normalise_value_normal; exact Hf.
  - intros x [Hx|Hx]%elem_of_union; eapply _normalise_keywords_normal; exact Hx.
Qed.

Lemma _normalise_keywords_None : _normalise_keywords None = _normalise_keywords (Some []).
Proof. reflexivity. Qed.

(** Normalising a concatenation is the union of the normalised parts. *)
Lemma _normalise_keywords_app a b :
  _normalise_keywords (Some (a ++ b))
  = _normalise_keywords (Some a) ∪ _normalise_keywords (Some b).
Proof.
  apply set_eq. intros x.
  rewrite elem_of_union, !elem_of_normalise_keywords. split.
  - intros (item & [Hin|Hin]%elem_of_app & Ht & ->); [left|right]; eauto.
  - intros [(item & Hin & Ht & ->)|(item & Hin & Ht & ->)];
      exists item; rewrite elem_of_app; auto.
Qed.

Section SetOrder.
Variable set_iter : gset string -> list string.
Hypothesis set_iter_elements : forall X, set_iter X ≡ₚ elements X.

(** On a constructed value [merge_keywords] changes the keywords only. *)
Lemma merge_keywords_constructed fs hl ht g o m kw av extra :
  let self := __post_init__ fs hl ht g o m kw av in
  merge_keywords set_iter self extra
  = {| face_shape := face_shape self; hair_length := hair_length self;
       hair_texture := hair_texture self; gender := gender self;
       occasion := occasion self; maintenance := maintenance self;
       keywords := keywords self ∪ _normalise_keywords extra;
       avoid := avoid self |}.
Proof.
  intros self. subst self. unfold merge_keywords, __post_init__.
  cbn [face_shape hair_length hair_texture gender occasion maintenance
       keywords avoid].
  rewrite !_normalise_value_idem.
  rewrite _normalise_keywords_union, _normalise_keywords_idem by done.
  reflexivity.
Qed.

(** Items that are empty once stripped normalise to nothing. *)
Lemma _normalise_keywords_blank items :
  Forall (fun item => strip item = "") items ->
  _normalise_keywords (Some items) = ∅.
Proof.
  intros Hblank. apply set_eq. intros x.
  rewrite elem_of_normalise_keywords. split; [|set_solver].
  intros (item & Hin & Ht & _). rewrite Forall_forall in Hblank.
  apply Hblank in Hin. by rewrite Hin in Ht.
Qed.

(** Merging [None], or items that are all blank, returns a value equal to
    [self]. *)
Theorem merge_keywords_blank fs hl ht g o m kw av (items : list string) :
  Forall (fun item => strip item = "") items ->
  let self := __post_init__ fs hl ht g o m kw av in
  merge_keywords set_iter self None = self
  /\ merge_keywords set_iter self (Some items) = self.
Proof.
  intros Hblank self. subst self.
  rewrite !merge_keywords_constructed, _normalise_keywords_blank by done.
  cbn [_normalise_keywords]. rewrite union_empty_r_L.
  by destruct (__post_init__ fs hl ht g o m kw av).
Qed.

(** Merging twice is merging the concatenation. *)
Theorem merge_keywords_twice fs hl ht g o m kw av (a b : list string) :
  let self := __post_init__ fs hl ht g o m kw av in
  merge_keywords set_iter (merge_keywords set_iter self (Some a)) (Some b)
  = merge_keywords set_iter self (Some (a ++ b)).
Proof.
  intros self. subst self.
  unfold merge_keywords at 2.
  rewrite !merge_keywords_constructed.
  cbn [face_shape hair_length hair_texture gender occasion maintenance
       keywords avoid __post_init__].
  rewrite !_normalise_value_idem.
  rewrite _normalise_keywords_union, _normalise_keywords_idem by done.
  rewrite _normalise_keywords_app. f_equal. set_solver.
Qed.

End SetOrder.

(** [describe] does not depend on the order in which sets are iterated. *)
Theorem describe_order_independent (iter1 iter2 : gset string -> list string)
    (p : ClientPreferences) :
  (forall X, iter1 X ≡ₚ elements X) ->
  (forall X, iter2 X ≡ₚ elements X) ->
  describe iter1 p = describe iter2 p.
Proof.
  intros H1 H2.
  assert (Hset : forall field label parts,
            describe_set iter1 field label parts
            = describe_set iter2 field label parts).
  { intros field label parts. unfold describe_set.
    rewrite (sorted_strings_unique (iter1 field) (iter2 field)); [done|].
    by rewrite H1, H2. }
  unfold describe. by rewrite !Hset.
Qed.

End PreferenceInvariants.

(** ** Payloads: what [from_dict] accepts and rejects *)

Section FromDictFacts.
Import PyStr preferences.

Lemma field_names_set :
  list_to_set field_names
  = ({["face_shape"; "hair_length"; "hair_texture"; "gender"; "occasion";
       "maintenance"; "keywords"; "avoid"]} : gset string).
Proof. unfold field_names. set_solver. Qed.

(** A key that is no field name makes the constructor call fail. *)
Lemma call_kwargs_unexpected data key :
  is_Some (data !! key) -> key ∉ field_names ->
  call_kwargs data = inl TypeError.
Proof.
  intros Hkey%elem_of_dom Hnot. unfold call_kwargs.
  rewrite bool_decide_eq_false_2; [done|].
  intros Hsub. apply Hnot. apply Hsub in Hkey.
  by apply elem_of_list_to_set in Hkey.
Qed.

(** The dictionary [from_dict] passes to the constructor keeps every key it
    does not pop. *)
Lemma from_dict_keeps payload key :
  key <> "keywords" -> key <> "tags" -> key <> "avoid" ->
  is_Some (payload !! key) ->
  exists data, from_dict payload = call_kwargs data /\ is_Some (data !! key).
Proof.
  intros Hk Ht Ha Hin. unfold from_dict, pop.
  repeat match goal with
         | |- context [if ?b then _ else _] => destruct b
         | |- context [let '(_, _) := ?x in _] => destruct x eqn:?
         end;
    eexists; (split; [reflexivity|]);
    rewrite ?lookup_insert_ne, ?lookup_delete_ne by done; done.
Qed.

(** A payload with a key that is neither a field name nor [tags] is
    rejected with [TypeError]. *)
Theorem from_dict_unknown_key (payload : gmap string pyval) (key : string) :
  is_Some (payload !! key) -> key ∉ "tags" :: field_names ->
  from_dict payload = inl TypeError.
Proof.
  intros Hin Hnot. rewrite not_elem_of_cons in Hnot. destruct Hnot as [Ht Hnot].
  destruct (from_dict_keeps payload key) as (data & -> & Hdata); try done.
  - intros ->. apply Hnot. unfold field_names. set_solver.
  - intros ->. apply Hnot. unfold field_names. set_solver.
  - by apply call_kwargs_unexpected with key.
Qed.

(** When [keywords] is truthy the [or] never pops [tags], and the
    constructor rejects the [tags] key that is left: a payload with both is
    a [TypeError]. *)
Theorem from_dict_keywords_and_tags (payload : gmap string pyval)
    (kw : pyval) :
  payload !! "keywords" = Some kw -> pyval_truthy kw = true ->
  is_Some (payload !! "tags") ->
  from_dict payload = inl TypeError.
Proof.
  intros Hkw Htruthy Htags. unfold from_dict, pop. rewrite Hkw. simpl.
  rewrite Htruthy.
  apply call_kwargs_unexpected with "tags".
  - destruct (is_PNone _), (is_PNone _);
      rewrite ?lookup_insert_ne, ?lookup_delete_ne by done; done.
  - unfold field_names. set_solver.
Qed.

End FromDictFacts.

Section FromDictPlain.
Import PyStr preferences.

(** The constructor call reads the field names in the dictionary, the six
    scalar values and the two normalised sets, and nothing else. *)
Lemma call_kwargs_ext d1 d2 :
  (dom d1 ⊆ list_to_set field_names <-> dom d2 ⊆ list_to_set field_names) ->
  (forall key, key ∈ scalar_fields -> d1 !! key = d2 !! key) ->
  _normalise_keywords (iterable_arg d1 "keywords")
  = _normalise_keywords (iterable_arg d2 "keywords") ->
  _normalise_keywords (iterable_arg d1 "avoid")
  = _normalise_keywords (iterable_arg d2 "avoid") ->
  call_kwargs d1 = call_kwargs d2.
Proof.
  intros Hdom Hscalar Hkw Hav. unfold call_kwargs.
  rewrite (bool_decide_ext _ _ Hdom).
  assert (Hs : forall key, key ∈ scalar_fields -> scalar_arg d1 key = scalar_arg d2 key).
  { intros key Hkey. unfold scalar_arg. by rewrite Hscalar. }
  rewrite !Hs by (unfold scalar_fields; set_solver).
  unfold __post_init__. by rewrite Hkw, Hav.
Qed.

(** Dropping [keywords] or [avoid] when its value is falsy changes nothing:
    the constructor's default is the empty set as well. *)
Lemma call_kwargs_drop_falsy d key :
  key = "keywords" \/ key = "avoid" ->
  pyval_truthy (default PNone (d !! key)) = false ->
  call_kwargs (delete key d) = call_kwargs d.
Proof.
  intros Hkey Hfalsy.
  assert (Hset : _normalise_keywords (iterable_arg (delete key d) key)
                 = _normalise_keywords (iterable_arg d key)).
  { unfold iterable_arg. rewrite lookup_delete_eq.
    destruct (d !! key) as [[|s|[|item items]]|];
      try reflexivity; try discriminate.
    simpl in Hfalsy. unfold truthy in Hfalsy.
    apply negb_false_iff in Hfalsy. apply String.eqb_eq in Hfalsy. by subst s. }
  apply call_kwargs_ext.
  - assert (Hfield : key ∈ (list_to_set field_names : gset string)).
    { apply elem_of_list_to_set. unfold field_names. rewrite !elem_of_cons.
      destruct Hkey as [-> | ->]; auto 10. }
    rewrite dom_delete. split; intros Hsub x Hx.
    + destruct (decide (x = key)) as [->|Hne]; [done|].
      apply Hsub. apply elem_of_difference. split; [done|].
      by rewrite elem_of_singleton.
    + apply Hsub. by apply elem_of_difference in Hx as [? _].
  - intros k (Hk & _ & Ha)%scalar_field_kept.
    rewrite lookup_delete_ne; [done|]. by destruct Hkey as [-> | ->].
  - destruct Hkey as [-> | ->]; [done|].
    unfold iterable_arg. by rewrite lookup_delete_ne.
  - destruct Hkey as [-> | ->]; [|done].
    unfold iterable_arg. by rewrite lookup_delete_ne.
Qed.

Lemma reinsert_popped (d : gmap string pyval) key v :
  d !! key = Some v -> <[key := v]> (delete key d) = d.
Proof. intros Hv. rewrite insert_delete_eq. by apply insert_id. Qed.

(** Without a [tags] key [from_dict] is the plain constructor call on the
    payload: popping [keywords] and [avoid] and storing them again, or
    leaving them out when they are [None] or empty, makes no difference. *)
Theorem from_dict_without_tags (payload : gmap string pyval) :
  payload !! "tags" = None ->
  from_dict payload = call_kwargs payload.
Proof.
  intros Htags.
  assert (Havoid :
    forall d : gmap string pyval,
      d !! "avoid" = payload !! "avoid" ->
      call_kwargs
        (if is_PNone (default PNone (payload !! "avoid")) then delete "avoid" d
         else <["avoid" := default PNone (payload !! "avoid")]> (delete "avoid" d))
      = call_kwargs d).
  { intros d Hd. destruct (payload !! "avoid") as [av|] eqn:Eav; simpl.
    - destruct (is_PNone av) eqn:Enone.
      + destruct av; try discriminate.
        apply call_kwargs_drop_falsy; [by right | by rewrite Hd].
      + by rewrite reinsert_popped.
    - apply call_kwargs_drop_falsy; [by right | by rewrite Hd]. }
  unfold from_dict, pop.
  destruct (pyval_truthy (default PNone (payload !! "keywords"))) eqn:Hkw.
  - destruct (payload !! "keywords") as [kw|] eqn:Ekw; [|done]. simpl in Hkw.
    change (default PNone (Some kw)) with kw.
    assert (is_PNone kw = false) as -> by (by destruct kw).
    rewrite (lookup_delete_ne payload "keywords" "avoid") by done.
    rewrite (delete_delete payload "avoid" "keywords").
    assert (<["keywords" := kw]> (delete "keywords" (delete "avoid" payload))
            = delete "avoid" payload) as Hback.
    { apply reinsert_popped. by rewrite lookup_delete_ne. }
    rewrite Hback. apply (Havoid payload eq_refl).
  - rewrite (lookup_delete_ne payload "keywords" "tags"), Htags by done.
    rewrite (delete_id (delete "keywords" payload) "tags")
      by (by rewrite lookup_delete_ne).
    rewrite (lookup_delete_ne payload "keywords" "avoid") by done.
    change (is_PNone (default PNone None)) with true. cbv iota.
    rewrite Havoid by (by rewrite lookup_delete_ne).
    apply call_kwargs_drop_falsy; [by left | done].
Qed.

(** The alias: with no [keywords] key at all, a [tags] sequence becomes the
    keywords, and preferences are returned for every accepted payload. *)
Theorem from_dict_tags_alias (payload : gmap string pyval) (ts : list string) :
  payload !! "keywords" = None ->
  payload !! "tags" = Some (PSeq ts) ->
  (forall p, from_dict payload = inr p ->
     keywords p = _normalise_keywords (Some ts))
  /\ (accepted payload -> exists p, from_dict payload = inr p).
Proof.
  intros Hkw Htags.
  assert (Hrun : from_dict payload
                 = from_dict (<["keywords" := PSeq []]> payload)).
  { unfold from_dict, pop. rewrite Hkw, lookup_insert_eq. simpl.
    rewrite delete_insert_eq. by rewrite (delete_id payload "keywords"). }
  rewrite Hrun.
  destruct (from_dict_falsy_unfold (<["keywords" := PSeq []]> payload)
              (PSeq []) ts) as (data & -> & Hdata & Hdom & Hscalar).
  { apply lookup_insert_eq. } { done. } { by rewrite lookup_insert_ne. }
  split.
  - intros p Hp%call_kwargs_keywords. rewrite Hp.
    unfold iterable_arg. by rewrite Hdata.
  - intros [Hkeys Htyped]. unfold call_kwargs.
    rewrite bool_decide_eq_true_2.
    2:{ etrans; [exact Hdom|]. rewrite dom_insert. unfold field_names in *.
        set_solver. }
    assert (Hok : forall key, key ∈ scalar_fields ->
                    exists v, scalar_arg data key = inr v).
    { intros key Hkey. apply scalar_arg_ok. intros items.
      rewrite Hscalar by done.
      destruct (scalar_field_kept key Hkey) as (? & _ & _).
      rewrite lookup_insert_ne by done. by apply Htyped. }
    destruct (Hok "face_shape") as [? ->]; [unfold scalar_fields; set_solver|].
    destruct (Hok "hair_length") as [? ->]; [unfold scalar_fields; set_solver|].
    destruct (Hok "hair_texture") as [? ->]; [unfold scalar_fields; set_solver|].
    destruct (Hok "gender") as [? ->]; [unfold scalar_fields; set_solver|].
    destruct (Hok "occasion") as [? ->]; [unfold scalar_fields; set_solver|].
    destruct (Hok "maintenance") as [? ->]; [unfold scalar_fields; set_solver|].
    eauto.
Qed.

End FromDictPlain.

(** ** Catalog records *)

Section RecordFacts.
Import PyStr catalog.
Variable repr_list : list string -> string.

Lemma as_frozenset_lower data key x :
  x ∈ _as_frozenset data key -> lower x = x.
Proof.
  unfold _as_frozenset. rewrite elem_of_list_to_set, list_elem_of_In, in_map_iff.
  intros (y & <- & _). apply lower_idem.
Qed.

(** Each field [from_mapping] builds is in normal form. *)
Lemma from_mapping_normal (data : gmap string jval) (h : Hairstyle) :
  from_mapping repr_list data = inr h -> normalised h.
Proof.
  unfold from_mapping. destruct (data !! "name") as [n|]; [|done].
  intros [= <-]. unfold normalised. simpl. split_and!.
  - apply strip_idem.
  - apply strip_idem.
  - apply lower_idem.
  - intros x Hx. rewrite !elem_of_union in Hx.
    destruct Hx as [[[[[Hx|Hx]|Hx]|Hx]|Hx]|Hx]; eapply as_frozenset_lower; exact Hx.
Qed.



Section SetOrder.
Variable set_iter : gset string -> list string.
Hypothesis set_iter_elements : forall X, set_iter X ≡ₚ elements X.

(** Sorting a set of lowercase strings into a list and converting the list
    back gives the set. *)
Lemma sorted_set_lower X :
  (forall x, x ∈ X -> lower x = x) ->
  list_to_set (map lower (PySort.sorted PyStr.lt false (set_iter X))) = X.
Proof.
  intros HX. apply set_eq. intros x.
  rewrite elem_of_list_to_set, list_elem_of_In, in_map_iff. split.
  - intros (y & <- & Hy%list_elem_of_In).
    rewrite elem_of_sorted, set_iter_elements, elem_of_elements in Hy.
    by rewrite (HX y Hy).
  - intros Hx. exists x. split; [by apply HX|].
    apply list_elem_of_In.
    by rewrite elem_of_sorted, set_iter_elements, elem_of_elements.
Qed.

(** Reading back what [to_dict] wrote, field by field. *)
Lemma to_dict_read_back (h : Hairstyle) :
  normalised h ->
  from_mapping repr_list (to_dict set_iter h) = inr h.
Proof.
  intros (Hname & Hdesc & Hmaint & Hsets).
  assert (Hset : forall X,
            (forall x, x ∈ X -> x ∈ face_shapes h ∪ hair_lengths h
                                 ∪ hair_textures h ∪ genders h
                                 ∪ occasions h ∪ tags h) ->
            list_to_set (map lower (PySort.sorted PyStr.lt false (set_iter X))) = X).
  { intros X HX. apply sorted_set_lower. intros x Hx. by apply Hsets, HX. }
  unfold from_mapping, _as_frozenset, to_dict, sorted_set.
  repeat (rewrite ?lookup_insert_eq, ?lookup_singleton_eq;
          rewrite ?lookup_insert_ne by done).
  cbn [default py_str id].
  rewrite Hname, Hdesc, Hmaint.
  rewrite !Hset by set_solver.
  by destruct h.
Qed.

(** The round trip: a normalised hairstyle written with [to_dict] is read
    back unchanged by [from_mapping]; in particular every hairstyle that
    [from_mapping] returned is. *)
Theorem to_dict_from_mapping (h : Hairstyle) :
  (normalised h -> from_mapping repr_list (to_dict set_iter h) = inr h)
  /\ (forall data, from_mapping repr_list data = inr h ->
        from_mapping repr_list (to_dict set_iter h) = inr h).
Proof.
  split.
  - apply to_dict_read_back.
  - intros data Hh. apply to_dict_read_back.
    by apply from_mapping_normal with data.
Qed.

End SetOrder.
End RecordFacts.

(** ** Building a catalog from records *)

Section RecordsLoop.
Import PyStr catalog.
Variable repr_list : list string -> string.

Local Abbreviation from_mapping := (catalog.from_mapping repr_list).
Local Abbreviation convert_all := (catalog.convert_all repr_list).
Local Abbreviation from_records_loop := (catalog.from_records_loop repr_list).
Local Abbreviation from_records := (catalog.from_records repr_list).

(** When every record converts, the lazy loop is the loop of [__init__]
    over the converted styles. *)
Lemma from_records_loop_converted records : forall d styles,
  convert_all records = inr styles ->
  from_records_loop d records = init_loop d styles.
Proof.
  induction records as [|record rest IH]; intros d styles; simpl.
  - by intros [= <-].
  - destruct (from_mapping record) as [e|style]; [done|].
    destruct (convert_all rest) as [e|styles'] eqn:Erest; [done|].
    intros [= <-]. simpl. destruct (PyDict.contains _ d); [done|]. by apply IH.
Qed.

(** A loop that finished has converted every record. *)
Lemma from_records_loop_inversion records : forall d d',
  from_records_loop d records = inr d' ->
  exists styles, convert_all records = inr styles /\ init_loop d styles = inr d'.
Proof.
  induction records as [|record rest IH]; intros d d'; simpl.
  - intros [= <-]. by exists [].
  - destruct (from_mapping record) as [e|style]; [done|].
    destruct (PyDict.contains _ d) eqn:Ec; [done|].
    intros (styles & -> & Hloop)%IH. exists (style :: styles).
    split; [done|]. simpl. by rewrite Ec.
Qed.

(** The loop runs over a prefix that converts and stores, then goes on. *)
Lemma from_records_loop_app pre : forall d d' styles rest,
  convert_all pre = inr styles -> init_loop d styles = inr d' ->
  from_records_loop d (pre ++ rest) = from_records_loop d' rest.
Proof.
  induction pre as [|record pre IH]; intros d d' styles rest; simpl.
  - intros [= <-] [= <-]. done.
  - destruct (from_mapping record) as [e|style]; [done|].
    destruct (convert_all pre) as [e|styles'] eqn:Epre; [done|].
    intros [= <-]. simpl. destruct (PyDict.contains _ d); [done|].
    by apply IH.
Qed.

Lemma convert_all_lookup records : forall styles i record,
  convert_all records = inr styles -> records !! i = Some record ->
  exists style, styles !! i = Some style /\ from_mapping record = inr style.
Proof.
  induction records as [|r rest IH]; intros styles i record; simpl; [done|].
  destruct (from_mapping r) as [e|style] eqn:Er; [done|].
  destruct (convert_all rest) as [e|styles'] eqn:Erest; [done|].
  intros [= <-]. destruct i as [|i]; simpl.
  - intros [= <-]. eauto.
  - by apply IH.
Qed.

Lemma convert_all_named records :
  Forall (fun record => is_Some (record !! "name")) records ->
  exists styles, convert_all records = inr styles.
Proof.
  induction 1 as [|record rest [n Hn] _ [styles IH]]; simpl; [by eexists|].
  unfold catalog.from_mapping. rewrite Hn, IH. by eexists.
Qed.

(** The lazy loop and the loop of [__init__] agree on converted records. *)
Lemma from_records_as_init (records : list (gmap string jval))
    (styles : list Hairstyle) :
  convert_all records = inr styles ->
  from_records records = __init__ styles.
Proof.
  intros Hconv. unfold catalog.from_records, __init__.
  by rewrite (from_records_loop_converted _ _ _ Hconv).
Qed.

(** [from_records] is [__init__] over the converted records whenever every
    record converts, and it builds a catalog only then. *)
Theorem from_records_converted (records : list (gmap string jval)) :
  (forall styles, convert_all records = inr styles ->
     from_records records = __init__ styles)
  /\ (forall c, from_records records = inr c ->
        exists styles, convert_all records = inr styles
                       /\ __init__ styles = inr c).
Proof.
  split.
  - intros styles. apply from_records_as_init.
  - intros c. unfold catalog.from_records.
    destruct (from_records_loop [] records) as [e|d] eqn:Eloop; [done|].
    intros [= <-].
    destruct (from_records_loop_inversion _ _ _ Eloop) as (styles & Hconv & Hinit).
    exists styles. split; [done|]. unfold __init__. by rewrite Hinit.
Qed.

(** A record without a [name] stops the construction with the key error of
    the subscript, provided the records before it were stored: they all
    convert and their lowercased names are distinct.  Records after it are
    never looked at. *)
Theorem from_records_missing_name (pre post : list (gmap string jval))
    (record : gmap string jval) (styles : list Hairstyle) :
  convert_all pre = inr styles ->
  NoDup (map key_of styles) ->
  record !! "name" = None ->
  from_records (pre ++ record :: post) = inl (KeyError "name").
Proof.
  intros Hconv Hnd Hname. unfold catalog.from_records.
  pose proof (init_loop_distinct styles [] Hnd) as Hloop. simpl in Hloop.
  rewrite (from_records_loop_app pre [] _ styles _ Hconv Hloop). simpl.
  unfold catalog.from_mapping. by rewrite Hname.
Qed.

(** Names that differ only in case and surrounding white space collide:
    when every record has a name and two of them have the same stripped,
    lowercased name, construction fails with a duplicate error. *)
Theorem from_records_duplicate_names (records : list (gmap string jval))
    (i j : nat) (r1 r2 : gmap string jval) (n1 n2 : jval) :
  Forall (fun record => is_Some (record !! "name")) records ->
  records !! i = Some r1 -> records !! j = Some r2 -> i <> j ->
  r1 !! "name" = Some n1 -> r2 !! "name" = Some n2 ->
  lower (strip (py_str repr_list n1)) = lower (strip (py_str repr_list n2)) ->
  exists n, from_records records
            = inl (ValueError ("Duplicate hairstyle: " ++ n)).
Proof.
  intros Hnamed Hi Hj Hne Hn1 Hn2 Hsame.
  destruct (convert_all_named records Hnamed) as [styles Hconv].
  rewrite (from_records_as_init _ _ Hconv).
  destruct (convert_all_lookup _ _ _ _ Hconv Hi) as (s1 & Hs1 & Hm1).
  destruct (convert_all_lookup _ _ _ _ Hconv Hj) as (s2 & Hs2 & Hm2).
  unfold catalog.from_mapping in Hm1, Hm2. rewrite Hn1 in Hm1. rewrite Hn2 in Hm2.
  assert (Hkey : key_of s1 = key_of s2).
  { injection Hm1 as <-. injection Hm2 as <-. exact Hsame. }
  assert (Hdup : ~ NoDup (map key_of styles)).
  { intros Hnd. apply Hne.
    apply (proj1 (NoDup_alt (map key_of styles)) Hnd i j (key_of s1)).
    - by rewrite list_lookup_fmap, Hs1.
    - by rewrite list_lookup_fmap, Hs2, Hkey. }
  destruct (init_loop_duplicate styles [] NoDup_nil_2 Hdup)
    as (mid & style & post & _ & _ & _ & Hfail).
  exists (name style). unfold __init__. simpl in Hfail. by rewrite Hfail.
Qed.

Section SetOrder.
Variable set_iter : gset string -> list string.
Hypothesis set_iter_elements : forall X, set_iter X ≡ₚ elements X.

Lemma convert_all_to_dict styles :
  Forall normalised styles ->
  convert_all (map (to_dict set_iter) styles) = inr styles.
Proof.
  induction 1 as [|style styles Hn _ IH]; simpl; [done|].
  by rewrite (to_dict_read_back repr_list set_iter set_iter_elements), IH.
Qed.

Lemma convert_all_normalised records : forall styles,
  convert_all records = inr styles -> Forall normalised styles.
Proof.
  induction records as [|r rest IH]; intros styles; simpl.
  - intros [= <-]. constructor.
  - destruct (from_mapping r) as [e|style] eqn:Er; [done|].
    destruct (convert_all rest) as [e|styles'] eqn:Erest; [done|].
    intros [= <-]. constructor; [|by apply IH].
    by apply (from_mapping_normal repr_list r).
Qed.

(** The round trip of a whole catalog: the records [to_list] writes for a
    catalog built by [from_records] build an equal catalog. *)
Theorem to_list_from_records (records : list (gmap string jval))
    (c : HairstyleCatalog) :
  from_records records = inr c ->
  from_records (to_list set_iter c) = inr c.
Proof.
  unfold catalog.from_records at 1.
  destruct (from_records_loop [] records) as [e|d] eqn:Eloop; [done|].
  intros [= <-].
  destruct (from_records_loop_inversion _ _ _ Eloop) as (styles & Hconv & Hinit).
  assert (Hc : __init__ styles = inr {| _by_name := d |})
    by (unfold __init__; by rewrite Hinit).
  destruct (init_inversion _ _ Hc) as [Hnd Hby]. simpl in Hby. subst d.
  unfold to_list, __iter__. simpl. rewrite values_entries.
  rewrite (from_records_as_init _ styles); [done|].
  apply convert_all_to_dict. by apply convert_all_normalised with records.
Qed.

End SetOrder.
End RecordsLoop.

(** ** Looking entries up *)

Section LookupFacts.
Import PyStr catalog.

Lemma get_entries_inv k styles style :
  PyDict.get k (entries styles) = Some style ->
  style ∈ styles /\ key_of style = k.
Proof.
  induction styles as [|s l IH]; simpl; [done|].
  destruct (String.eqb_spec (key_of s) k) as [Hk|Hk].
  - intros [= <-]. split; [apply list_elem_of_here | done].
  - intros [Hin Hkey]%IH. split; [by apply list_elem_of_further | done].
Qed.

(** What [find] returns is an entry of the catalog, and its name is the
    requested one up to case. *)
Theorem find_sound (hairstyles : list Hairstyle) (c : HairstyleCatalog)
    (requested : string) (style : Hairstyle) :
  __init__ hairstyles = inr c ->
  find c requested = inr style ->
  style ∈ __iter__ c /\ lower (name style) = lower requested.
Proof.
  intros [_ Hby]%init_inversion. unfold find, __iter__. rewrite Hby, values_entries.
  destruct (PyDict.get _ _) as [found|] eqn:Eget; [|done].
  intros [= <-]. by apply get_entries_inv in Eget.
Qed.

(** [name in catalog] holds exactly of the names that match an entry up to
    case, which are the names [find] succeeds on; and [len] counts the
    styles the catalog was built from. *)
Theorem contains_matches_entries (hairstyles : list Hairstyle)
    (c : HairstyleCatalog) (requested : string) :
  __init__ hairstyles = inr c ->
  (__contains__ c requested = true <->
     exists style, style ∈ __iter__ c /\ lower (name style) = lower requested)
  /\ (__contains__ c requested = true <->
        exists style, find c requested = inr style)
  /\ __len__ c = length hairstyles.
Proof.
  intros [Hnd Hby]%init_inversion.
  unfold __contains__, find, __iter__, __len__, PyDict.contains.
  rewrite Hby, values_entries. split_and!.
  - destruct (PyDict.get _ _) as [found|] eqn:Eget.
    + apply get_entries_inv in Eget as [Hin Hkey]. split; [eauto | done].
    + split; [done|]. intros (style & Hin & Hkey).
      apply get_entries_None in Eget. exfalso. apply Eget.
      rewrite <-Hkey. apply list_elem_of_In.
      apply (in_map key_of hairstyles style). by apply list_elem_of_In.
  - destruct (PyDict.get _ _) as [found|]; split.
    + eauto.
    + done.
    + done.
    + by intros [? ?].
  - unfold entries. by rewrite length_map.
Qed.

End LookupFacts.

(** ** The veto and what [rank] returns *)

Section VetoFacts.
Import PyStr catalog preferences recommendation.
Context {F : Type} `{Num F}.
Variable set_iter : gset string -> list string.

Local Abbreviation flagged :=
  (existsb (fun reason => startswith reason "conflicts with")).

(** A reason that does not open with the marker leaves the verdict as it
    was. *)
Lemma flagged_credit (st : tally) (w : F) (reason : string) :
  startswith reason "conflicts with" = false ->
  flagged (credit st w reason).2 = flagged st.2.
Proof.
  intros Hr. unfold credit. cbn [snd]. rewrite existsb_app. cbn [existsb].
  by rewrite Hr, !orb_false_r.
Qed.

Lemma flagged_maintenance self style p (st : tally) :
  flagged (score_maintenance self style p st).2 = flagged st.2.
Proof.
  unfold score_maintenance.
  destruct (preferences.maintenance p) as [m|]; [|done].
  destruct (truthy m); [|done].
  destruct (_MAINTENANCE_LEVELS !! m) as [desired|]; [|done].
  destruct (_MAINTENANCE_LEVELS !! catalog.maintenance style) as [current|]; [|done].
  destruct (Z.abs (desired - current) =? 0)%Z; [by apply flagged_credit|].
  destruct (Z.abs (desired - current) =? 1)%Z; [by apply flagged_credit|done].
Qed.

(** The verdict of [_has_conflict] on a scored style, read off the steps of
    [_score]. *)
Lemma score_flagged_iff (self : RecommendationEngine F)
    (style : Hairstyle) (p : ClientPreferences) :
  _has_conflict (_score set_iter self style p)
  = bool_decide (avoid p ∩ tags style <> ∅).
Proof.
  destruct (decide (avoid p ∩ tags style <> ∅)) as [Hconflict|Hclean].
  { rewrite bool_decide_eq_true_2 by done. by apply score_has_conflict. }
  rewrite bool_decide_eq_false_2 by done.
  unfold _has_conflict, _score. cbv zeta. cbn [reasons].
  assert (Hlast : forall (b : bool) (st : tally) (w : F) (reason : string),
            flagged (if b then
                       if bool_decide (avoid p ∩ tags style <> ∅)
                       then credit st w reason else st
                     else st).2 = flagged st.2).
  { intros b st w reason. rewrite bool_decide_eq_false_2 by done.
    by destruct b. }
  rewrite Hlast.
  assert (Hstep : forall (b1 b2 : bool) (st : tally) (w : F) (reason : string),
            startswith reason "conflicts with" = false ->
            flagged (if b1 then if b2 then credit st w reason else st else st).2
            = flagged st.2).
  { intros [] [] st w reason Hr; try done. by apply flagged_credit. }
  rewrite Hstep by done.
  rewrite flagged_maintenance.
  repeat match goal with
         | |- context [matches ?pref ?values] =>
             destruct (matches pref values);
             [rewrite flagged_credit by done|]
         end;
    done.
Qed.

(** [_has_conflict] is raised by the avoid block and by nothing else: a
    scored style is flagged exactly when its tags meet the avoid set. *)
Theorem has_conflict_iff_avoided (self : RecommendationEngine F)
    (style : Hairstyle) (p : ClientPreferences) :
  (_has_conflict (_score set_iter self style p) = true
   <-> avoid p ∩ tags style <> ∅)
  /\ (_has_conflict (_score set_iter self style p) = false
      <-> avoid p ∩ tags style = ∅).
Proof.
  rewrite score_flagged_iff. split.
  - apply bool_decide_eq_true.
  - rewrite bool_decide_eq_false. split.
    + intros Hn. destruct (decide (avoid p ∩ tags style = ∅)); [done|].
      by destruct Hn.
    + by intros -> [].
Qed.

(** [rank] returns exactly the scored catalog entries whose score reaches
    the minimum and whose tags avoid the avoid set. *)
Theorem rank_membership (self : RecommendationEngine F)
    (p : ClientPreferences) (r : Recommendation F) :
  r ∈ rank set_iter self p <->
  exists style,
    style ∈ catalog.__iter__ (catalog self)
    /\ r = _score set_iter self style p
    /\ fge (score r) (minimum_score self) = true
    /\ avoid p ∩ tags style = ∅.
Proof.
  split.
  - intros (style & Hin & -> & Hfloor & Hclean)%elem_of_rank.
    exists style. split_and!; try done.
    rewrite score_flagged_iff in Hclean.
    apply bool_decide_eq_false in Hclean.
    destruct (decide (avoid p ∩ tags style = ∅)); [done|]. by destruct Hclean.
  - intros (style & Hin & -> & Hfloor & Hclean).
    unfold rank. rewrite elem_of_sorted, list_elem_of_In, filter_In, in_map_iff.
    split; [exists style; by rewrite <-list_elem_of_In|].
    rewrite Hfloor, score_flagged_iff.
    rewrite bool_decide_eq_false_2; [done|]. by intros [].
Qed.

(** Every recommendation of [rank] is for a catalog entry, and no entry is
    recommended more often than the catalog holds it: at most once for a
    constructed catalog, and never more results than entries. *)
Theorem rank_within_catalog (self : RecommendationEngine F)
    (p : ClientPreferences) :
  map hairstyle (rank set_iter self p) ⊆+ catalog.__iter__ (catalog self)
  /\ length (rank set_iter self p) <= length (catalog.__iter__ (catalog self)).
Proof.
  assert (Hsub : map hairstyle (rank set_iter self p)
                 ⊆+ catalog.__iter__ (catalog self)).
  { unfold rank.
    rewrite (Permutation_map hairstyle (sorted_Permutation _ _ _)).
    apply sublist_submseteq.
    induction (catalog.__iter__ (catalog self)) as [|style l IH]; simpl;
      [constructor|].
    destruct (_ && _); simpl; by constructor. }
  split; [done|].
  apply submseteq_length in Hsub. by rewrite length_map in Hsub.
Qed.

End VetoFacts.

(** ** The order of the whole ranking *)

(** The rationals satisfy the remaining order laws. *)
#[export] Instance NumTotalOrder_Q : NumTotalOrder Q.
Proof.
  assert (Hlt : forall a b : Q, flt a b = true <-> (a < b)%Q).
  { intros a b. simpl. rewrite negb_true_iff. split.
    - intros Hle. apply Qnot_le_lt. intros Hba%Qle_bool_iff. congruence.
    - intros Hab. destruct (Qle_bool b a) eqn:E; [|done].
      apply Qle_bool_iff in E. by apply Qle_not_lt in E. }
  assert (Heq : forall a b : Q, feq a b = true <-> (a == b)%Q).
  { intros a b. simpl. apply Qeq_bool_iff. }
  split.
  - intros a. by apply Heq.
  - intros a b c Hab%Heq Hbc%Heq. apply Heq. by rewrite Hab.
  - intros a b c Hab%Hlt Hbc%Hlt. apply Hlt. by apply Qlt_trans with b.
  - intros a b c Hab%Heq. apply eq_true_iff_eq. rewrite !Hlt. by rewrite Hab.
  - intros a b c Hbc%Heq. apply eq_true_iff_eq. rewrite !Hlt. by rewrite Hbc.
  - intros a b Hab%Hlt. destruct (feq a b) eqn:E; [|done].
    apply Heq in E. rewrite E in Hab. by apply Qlt_irrefl in Hab.
Qed.

Lemma StronglySorted_lookup_lt {A} (R : A -> A -> Prop) (l : list A) :
  StronglySorted R l ->
  forall i j a b, l !! i = Some a -> l !! j = Some b -> i < j -> R a b.
Proof.
  induction 1 as [|x l Hl IH Hall]; intros i j a b Ha Hb Hij; [done|].
  destruct j as [|j]; [lia|]. destruct i as [|i]; simpl in *.
  - injection Ha as ->. rewrite Forall_forall in Hall. apply Hall.
    by apply list_elem_of_lookup_2 with j.
  - apply (IH i j); [done..|lia].
Qed.

Section RankTotalOrder.
Import PyStr catalog preferences recommendation.
Context {F : Type} `{NumOrder F} `{!NumTotalOrder F}.

(** "Not smaller" on sort keys is transitive. *)
Lemma key_ge_trans (a b c : F * string) :
  key_lt a b = false -> key_lt b c = false -> key_lt a c = false.
Proof.
  unfold key_lt.
  destruct (feq a.1 b.1) eqn:Eab, (feq b.1 c.1) eqn:Ebc.
  - rewrite (feq_trans _ _ _ Eab Ebc). intros Hab Hbc.
    apply (string_in_order_trans c.2 b.2 a.2); assumption.
  - intros _ Hbc.
    assert (feq a.1 c.1 = false) as ->.
    { destruct (feq a.1 c.1) eqn:Eac; [|done].
      rewrite (feq_sym a.1 b.1) in Eab.
      by rewrite (feq_trans _ _ _ Eab Eac) in Ebc. }
    by rewrite (flt_feq_l _ _ c.1 Eab).
  - intros Hab _.
    assert (feq a.1 c.1 = false) as ->.
    { destruct (feq a.1 c.1) eqn:Eac; [|done].
      rewrite (feq_sym b.1 c.1) in Ebc.
      by rewrite (feq_trans _ _ _ Eac Ebc) in Eab. }
    by rewrite <-(flt_feq_r a.1 _ _ Ebc).
  - intros Hab Hbc.
    assert (Hba : flt b.1 a.1 = true).
    { destruct (flt_total a.1 b.1) as [?|[?|?]]; congruence. }
    assert (Hcb : flt c.1 b.1 = true).
    { destruct (flt_total b.1 c.1) as [?|[?|?]]; congruence. }
    pose proof (flt_trans _ _ _ Hcb Hba) as Hca.
    rewrite (feq_sym a.1 c.1), (flt_not_feq _ _ Hca).
    by apply flt_asym.
Qed.

(** The ranking is ordered as a whole, not only between neighbours: a
    recommendation has a greater score than any later one, or an equal
    score and a name that is not smaller, case-insensitively. *)
Theorem rank_sorted_all_pairs (set_iter : gset string -> list string)
    (self : RecommendationEngine F) (preferences : ClientPreferences)
    (i j : nat) (a b : Recommendation F) :
  i < j ->
  rank set_iter self preferences !! i = Some a ->
  rank set_iter self preferences !! j = Some b ->
  fgt (score a) (score b) = true
  \/ (feq (score a) (score b) = true
      /\ PyStr.le (lower (name (hairstyle b))) (lower (name (hairstyle a)))
         = true).
Proof.
  intros Hij Ha Hb.
  set (R := PySort.in_order (fun x y : Recommendation F =>
                               key_lt (sort_key x) (sort_key y)) true).
  assert (Htrans : Transitive R).
  { intros x y z. unfold R, PySort.in_order. apply key_ge_trans. }
  assert (Hord : R a b).
  { apply (StronglySorted_lookup_lt R (rank set_iter self preferences))
      with i j; [|done..].
    apply Sorted_StronglySorted; [done|].
    apply Sorted_sorted. intros x y. apply key_lt_asym. }
  unfold R, PySort.in_order, key_lt, sort_key in Hord. cbn [fst snd] in Hord.
  destruct (feq (score a) (score b)) eqn:Heq.
  - right. split; [done|]. by rewrite string_le_not_lt, Hord.
  - left. unfold fgt.
    destruct (flt_total (score a) (score b)) as [Hlt|[Heq'|Hgt]]; congruence.
Qed.

End RankTotalOrder.

(** ** No preferences, and the convenience wrapper *)

Section Unfiltered.
Import PyStr catalog preferences recommendation.
Context {F : Type} `{Num F}.
Variable set_iter : gset string -> list string.

(** Preferences with every field unset score every style 0.0 with no
    reason. *)
Lemma score_defaults (self : RecommendationEngine F) (style : Hairstyle) :
  _score set_iter self style defaults
  = {| hairstyle := style; score := of_Q 0; reasons := [] |}.
Proof.
  unfold _score, score_maintenance, matches, defaults, __post_init__.
  cbn [face_shape hair_length hair_texture gender occasion
       preferences.maintenance keywords avoid _normalise_value
       _normalise_keywords].
  by rewrite !bool_decide_eq_false_2 by (by intros []).
Qed.

(** With no preferences nothing is vetoed: an engine whose minimum score
    admits 0.0 ranks every catalog entry, each with score 0.0 and no
    reasons. *)
Theorem rank_no_preferences (self : RecommendationEngine F) :
  fge (of_Q 0) (minimum_score self) = true ->
  map hairstyle (rank set_iter self defaults)
    ≡ₚ catalog.__iter__ (catalog self)
  /\ Forall (fun r => score r = of_Q 0 /\ reasons r = [])
            (rank set_iter self defaults).
Proof.
  intros Hfloor.
  assert (Hrank : rank set_iter self defaults
                  ≡ₚ map (fun style => {| hairstyle := style; score := of_Q 0;
                                          reasons := [] |})
                         (catalog.__iter__ (catalog self))).
  { unfold rank. rewrite sorted_Permutation.
    induction (catalog.__iter__ (catalog self)) as [|style l IH];
      cbn [map List.filter]; [done|].
    rewrite score_defaults. cbn [score _has_conflict reasons existsb].
    rewrite Hfloor. cbn [andb negb]. by rewrite IH. }
  split.
  - rewrite (Permutation_map hairstyle Hrank), map_map. simpl.
    by rewrite map_id.
  - rewrite Hrank. apply Forall_forall. intros r Hr%list_elem_of_In%in_map_iff.
    by destruct Hr as (style & <- & _).
Qed.

Variable default_catalog : catalog.error + HairstyleCatalog.

(** Whatever [recommend_hairstyles] returns is a prefix of the ranking of
    an engine with minimum score 0.0: every result has a score of at least
    0.0 and no conflict reason, and a positive limit bounds their number. *)
Theorem recommend_hairstyles_results
    (input : ClientPreferences + gmap string pyval)
    (given : option HairstyleCatalog) (limit : Z)
    (weights : option (gmap string F)) (results : list (Recommendation F)) :
  recommend_hairstyles set_iter default_catalog input given limit weights
  = inr results ->
  Forall (fun r => fge (score r) (of_Q 0) = true /\ _has_conflict r = false)
         results
  /\ ((0 < limit)%Z -> length results <= Z.to_nat limit).
Proof.
  unfold recommend_hairstyles.
  destruct (match input with inl p => inr p | inr payload => from_dict payload end)
    as [e|p]; [done|].
  destruct (match given with Some c => inr c | None => default_catalog end)
    as [e|c]; [done|].
  intros [= <-]. set (engine := __init__ c weights (of_Q 0)).
  assert (Hprefix : forall r, r ∈ recommend set_iter engine p limit ->
                              r ∈ rank set_iter engine p).
  { intros r. unfold recommend, slice_to.
    destruct (0 <? limit)%Z; [|done].
    destruct (0 <=? limit)%Z; apply subseteq_take. }
  split.
  - apply Forall_forall. intros r Hr%Hprefix.
    apply elem_of_rank in Hr as (style & _ & _ & Hfloor & Hclean). done.
  - intros Hlimit. unfold recommend, slice_to.
    assert ((0 <? limit)%Z = true) as -> by lia.
    assert ((0 <=? limit)%Z = true) as -> by lia.
    rewrite length_take. lia.
Qed.

End Unfiltered.

(** ** The further properties on the sample data *)

Section MoreSamples.
Import PyStr catalog preferences recommendation sample.

Lemma elements_order (X : gset string) : elements X ≡ₚ elements X.
Proof. reflexivity. Qed.

Lemma reversed_order (X : gset string) : reverse (elements X) ≡ₚ elements X.
Proof. apply reverse_Permutation. Qed.


Lemma bob_record_converts : from_mapping repr_list bob_record = inr bob.
Proof. vm_compute. reflexivity. Qed.

Lemma preferences_normal_form_witness :
  "oval" <> "" /\ strip "oval" = "oval" /\ lower "oval" = "oval".
Proof.
  apply (proj1 (preferences_normal_form (Some " Oval ") None None None None
                  None None None) (Some "oval") "oval").
  - apply list_elem_of_here.
  - reflexivity.
Defined.

Lemma merge_keywords_blank_witness :
  merge_keywords elements low_maintenance None = low_maintenance
  /\ merge_keywords elements low_maintenance (Some ["   "; ""]) = low_maintenance.
Proof.
  apply (merge_keywords_blank elements elements_order).
  repeat constructor.
Defined.

Lemma merge_keywords_twice_witness :
  merge_keywords elements
    (merge_keywords elements low_maintenance (Some [" Curls "]))
    (Some ["volume"; "curls"])
  = merge_keywords elements low_maintenance (Some ([" Curls "] ++ ["volume"; "curls"])).
Proof.
  apply (merge_keywords_twice elements elements_order).
Defined.

Lemma describe_order_independent_witness :
  describe elements no_heat = describe (fun X => reverse (elements X)) no_heat.
Proof.
  apply describe_order_independent; [apply elements_order | apply reversed_order].
Defined.

Lemma from_dict_unknown_key_witness :
  from_dict {[ "colour" := PStr "red"; "gender" := PStr "female" ]}
  = inl TypeError.
Proof.
  apply (from_dict_unknown_key _ "colour").
  - by eexists.
  - apply (bool_decide_unpack _). vm_compute. exact I.
Defined.

Lemma from_dict_keywords_and_tags_witness :
  from_dict {[ "keywords" := PSeq ["curls"]; "tags" := PSeq ["volume"] ]}
  = inl TypeError.
Proof.
  apply (from_dict_keywords_and_tags _ (PSeq ["curls"])).
  - reflexivity.
  - reflexivity.
  - by eexists.
Defined.

Lemma from_dict_without_tags_witness :
  from_dict {[ "keywords" := PSeq []; "avoid" := PNone; "gender" := PStr "F" ]}
  = call_kwargs {[ "keywords" := PSeq []; "avoid" := PNone; "gender" := PStr "F" ]}.
Proof.
  apply from_dict_without_tags. reflexivity.
Defined.

Lemma alias_payload_accepted : accepted alias_payload.
Proof.
  split.
  - apply (bool_decide_unpack _). vm_compute. exact I.
  - intros key items (Hk & Ht & Ha)%scalar_field_kept.
    unfold alias_payload. rewrite !lookup_insert_Some, lookup_singleton_Some.
    intros [[_ [=]]|[_ [[_ [=]]|[_ [[? _]|[_ [? _]]]]]]]; done.
Qed.

Lemma from_dict_tags_alias_witness :
  exists p, from_dict alias_payload = inr p
            /\ keywords p = _normalise_keywords (Some ["Volume"]).
Proof.
  destruct (from_dict_tags_alias alias_payload ["Volume"] eq_refl eq_refl)
    as [Hkeywords Hreturns].
  destruct (Hreturns alias_payload_accepted) as [p Hp].
  exists p. split; [exact Hp | by apply Hkeywords].
Defined.


Lemma afro_normalised : normalised afro.
Proof.
  unfold normalised, afro. cbn [name description catalog.maintenance
    face_shapes hair_lengths hair_textures genders occasions tags].
  split_and!; [reflexivity..|].
  intros x. rewrite !elem_of_union, !elem_of_singleton, !elem_of_empty.
  intros Hx. repeat (destruct Hx as [Hx|Hx]); try subst x; try done.
Qed.

Lemma to_dict_from_mapping_witness :
  from_mapping repr_list (to_dict elements afro) = inr afro.
Proof.
  apply (proj1 (to_dict_from_mapping repr_list elements elements_order afro)).
  apply afro_normalised.
Defined.

Lemma convert_sample_records :
  convert_all repr_list [afro_record; bob_record] = inr [afro; bob].
Proof. vm_compute. reflexivity. Qed.

Lemma from_records_converted_witness :
  from_records repr_list [afro_record; bob_record] = catalog.__init__ [afro; bob].
Proof.
  apply (proj1 (from_records_converted repr_list _)).
  apply convert_sample_records.
Defined.

Lemma from_records_missing_name_witness :
  from_records repr_list
    ([afro_record] ++ {[ "description" := JStr "no name" ]} :: [bob_record])
  = inl (KeyError "name").
Proof.
  apply (from_records_missing_name repr_list [afro_record] [bob_record] _ [afro]).
  - vm_compute. reflexivity.
  - apply (bool_decide_unpack _). vm_compute. exact I.
  - reflexivity.
Defined.

Lemma from_records_duplicate_names_witness :
  exists n, from_records repr_list [afro_record; bob_record; {[ "name" := JStr "AFRO" ]}]
            = inl (ValueError ("Duplicate hairstyle: " ++ n)).
Proof.
  apply (from_records_duplicate_names repr_list _ 0 2 afro_record
           {[ "name" := JStr "AFRO" ]} (JStr " Afro ") (JStr "AFRO")).
  - repeat constructor; by eexists.
  - reflexivity.
  - reflexivity.
  - lia.
  - reflexivity.
  - reflexivity.
  - reflexivity.
Defined.

Lemma from_sample_records :
  from_records repr_list [afro_record; bob_record] = inr two_styles.
Proof. vm_compute. reflexivity. Qed.

Lemma to_list_from_records_witness :
  from_records repr_list (to_list elements two_styles) = inr two_styles.
Proof.
  apply (to_list_from_records repr_list elements elements_order
           [afro_record; bob_record]).
  apply from_sample_records.
Defined.

Lemma find_sound_witness :
  bob ∈ __iter__ two_styles /\ lower (name bob) = lower "BOB".
Proof.
  apply (find_sound [afro; bob] two_styles "BOB" bob); reflexivity.
Defined.

Lemma contains_matches_entries_witness :
  (__contains__ two_styles "AFRO" = true <->
     exists style, style ∈ __iter__ two_styles /\ lower (name style) = lower "AFRO")
  /\ (__contains__ two_styles "AFRO" = true <->
        exists style, find two_styles "AFRO" = inr style)
  /\ __len__ two_styles = length [afro; bob].
Proof.
  apply (contains_matches_entries [afro; bob] two_styles "AFRO"). reflexivity.
Defined.

Lemma has_conflict_iff_avoided_witness :
  _has_conflict (_score elements engine bob no_heat) = true
  /\ _has_conflict (_score elements engine afro no_heat) = false.
Proof.
  split.
  - apply (proj1 (has_conflict_iff_avoided elements engine bob no_heat)).
    apply (bool_decide_unpack _). vm_compute. exact I.
  - apply (proj2 (has_conflict_iff_avoided elements engine afro no_heat)).
    vm_compute. reflexivity.
Defined.

Lemma rank_membership_witness :
  _score elements engine afro no_heat ∈ rank elements engine no_heat.
Proof.
  apply (proj2 (rank_membership elements engine no_heat _)).
  exists afro. split_and!.
  - apply list_elem_of_here.
  - reflexivity.
  - vm_compute. reflexivity.
  - vm_compute. reflexivity.
Defined.

Lemma rank_no_preferences_witness :
  map hairstyle (rank elements engine defaults) ≡ₚ __iter__ (catalog engine)
  /\ Forall (fun r => score r = of_Q 0 /\ reasons r = [])
            (rank elements engine defaults).
Proof.
  apply (rank_no_preferences elements engine). reflexivity.
Defined.

Lemma rank_sorted_all_pairs_witness :
  fgt (score (_score elements engine afro low_maintenance))
      (score (_score elements engine bob low_maintenance)) = true
  \/ (feq (score (_score elements engine afro low_maintenance))
          (score (_score elements engine bob low_maintenance)) = true
      /\ PyStr.le (lower (name (hairstyle (_score elements engine bob low_maintenance))))
                  (lower (name (hairstyle (_score elements engine afro low_maintenance))))
         = true).
Proof.
  apply (rank_sorted_all_pairs elements engine low_maintenance 0 1).
  - lia.
  - vm_compute. reflexivity.
  - vm_compute. reflexivity.
Defined.

Lemma recommend_hairstyles_results_witness :
  Forall (fun r => fge (score r) (of_Q 0) = true /\ _has_conflict r = false)
         (recommend elements engine no_heat 1)
  /\ ((0 < 1)%Z -> length (recommend elements engine no_heat 1) <= Z.to_nat 1).
Proof.
  apply (recommend_hairstyles_results elements (inl (ValueError "no data"))
           (inl no_heat) (Some two_styles) 1 None).
  reflexivity.
Defined.

End MoreSamples.
